(** * 5G core simulation: registration and session orchestration

    A shallow embedding of the request handlers of [main.py] (NSSF, UDM/AUSF,
    PCF, AMF, SMF and UPF routers) over the entity schemas of [schemas.py],
    followed by the properties of the registration and session procedures.

    Handlers are functions in a state-and-exception monad over the document
    store: a raised [HTTPException] keeps every write made before it, exactly
    as the handlers run without a transaction.  Request payloads are modelled
    at the types the schemas give their fields: a string-valued key is an
    [option string] ([None] when the key is missing), a byte count an
    [option Z]. *)

From Stdlib Require Import List String Ascii ZArith Bool Lia DecimalString.
From Stdlib Require DecimalPos DecimalZ.
Import ListNotations.

Local Open Scope string_scope.
Local Open Scope Z_scope.

(* ------------------------------------------------------------------ *)
(** ** Values of free-form mappings ([Dict[str, Any]]) *)

Inductive jval : Type :=
| JNull
| JBool (b : bool)
| JNum (z : Z)
| JStr (s : string).

Definition jdict : Type := list (string * jval).

(** [payload.get(k)] of a string-valued key, as it is logged. *)
Definition jopt (o : option string) : jval :=
  match o with
  | Some s => JStr s
  | None => JNull
  end.

(* ------------------------------------------------------------------ *)
(** ** Entities ([schemas.py]) *)

Module UE.
Record t : Type := Build {
  supi : string;
  guti : option string;
  plmn : string;
  slices : list string;
  registered : bool;
  amf_id : option string;
  last_seen : option Z
}.
End UE.

Module Slice.
Record t : Type := Build {
  slice_id : string;
  sst : string;
  sd : option string;
  description : option string;
  plmns : list string
}.
End Slice.

Module PolicyRule.
Record t : Type := Build {
  policy_id : string;
  desc : option string;
  qos : jdict;
  charging : jdict
}.
End PolicyRule.

Module PDUSession.
Record t : Type := Build {
  session_id : string;
  supi : string;
  dnn : string;
  s_nssai : string;
  smf_id : option string;
  upf_id : option string;
  state : string;
  qos_rules : jdict;
  ul_bytes : Z;
  dl_bytes : Z
}.
End PDUSession.

Module NFService.
Record t : Type := Build {
  nf_type : string;
  nf_id : string;
  status : string;
  api_base : string;
  capabilities : list string
}.
End NFService.

Module LogEntry.
Record t : Type := Build {
  nf : string;
  level : string;
  message : string;
  context : jdict
}.
End LogEntry.

(** The documents of the [upfstate] collection have no schema class; their
    shape is the one the two upserts of [main.py] write. *)
Module UPFState.
Record t : Type := Build {
  upf_id : option string;
  ul_bytes : Z;
  dl_bytes : Z
}.
End UPFState.

(* ------------------------------------------------------------------ *)
(** ** The document store *)

Module DB.
(** Modelled from the spec: the [database] module ([db], [create_document],
    [get_documents]) is not among the sources.  Following the Repository of
    the spec, the store is one collection per entity, each kept in store
    iteration order; the bookkeeping fields a document gets on creation
    ([_id], [created_at]) are left out, no handler reads them. *)
Record t : Type := Build {
  ue : list UE.t;
  slice : list Slice.t;
  policyrule : list PolicyRule.t;
  pdusession : list PDUSession.t;
  nfservice : list NFService.t;
  upfstate : list UPFState.t;
  logentry : list LogEntry.t
}.

Definition empty : t := Build [] [] [] [] [] [] [].

Definition with_ue (f : list UE.t -> list UE.t) (d : t) : t :=
  Build (f (ue d)) (slice d) (policyrule d) (pdusession d) (nfservice d)
        (upfstate d) (logentry d).
Definition with_policyrule (f : list PolicyRule.t -> list PolicyRule.t) (d : t) : t :=
  Build (ue d) (slice d) (f (policyrule d)) (pdusession d) (nfservice d)
        (upfstate d) (logentry d).
Definition with_pdusession (f : list PDUSession.t -> list PDUSession.t) (d : t) : t :=
  Build (ue d) (slice d) (policyrule d) (f (pdusession d)) (nfservice d)
        (upfstate d) (logentry d).
Definition with_upfstate (f : list UPFState.t -> list UPFState.t) (d : t) : t :=
  Build (ue d) (slice d) (policyrule d) (pdusession d) (nfservice d)
        (f (upfstate d)) (logentry d).
Definition with_logentry (f : list LogEntry.t -> list LogEntry.t) (d : t) : t :=
  Build (ue d) (slice d) (policyrule d) (pdusession d) (nfservice d)
        (upfstate d) (f (logentry d)).
End DB.

Section Collection.
Context {A : Type}.

(** Modelled from the spec: [find_one(filter)], the first match in store
    iteration order. *)
Definition find_one (p : A -> bool) (c : list A) : option A := find p c.

(** Modelled from the spec: [create_document], which appends. *)
Definition insert_one (x : A) (c : list A) : list A := c ++ [x].

(** Modelled from the spec: [update_one(filter, update)] rewrites the first
    match and leaves a collection without a match as it is. *)
Fixpoint update_one (p : A -> bool) (f : A -> A) (c : list A) : list A :=
  match c with
  | [] => []
  | x :: c' => if p x then f x :: c' else x :: update_one p f c'
  end.

(** Modelled from the spec: [update_one(filter, update, upsert=True)]; [ins]
    is the document inserted when nothing matches. *)
Definition upsert_one (p : A -> bool) (f : A -> A) (ins : A) (c : list A) : list A :=
  match find_one p c with
  | Some _ => update_one p f c
  | None => insert_one ins c
  end.
End Collection.

(** A filter [{"field": v}] on a string field, where [v] came out of a
    payload: a missing value matches no document that has the field. *)
Definition field_is (v : option string) (x : string) : bool :=
  match v with
  | Some s => String.eqb s x
  | None => false
  end.

(** A filter [{"field": v}] on a list-of-strings field: the list holds [v]. *)
Definition field_has (v : option string) (xs : list string) : bool :=
  match v with
  | Some s => existsb (String.eqb s) xs
  | None => false
  end.

(** Equality of optional identifiers, for the filter [{"upf_id": v}], in which
    a null value matches a null field. *)
Definition opt_eqb (a b : option string) : bool :=
  match a, b with
  | Some x, Some y => String.eqb x y
  | None, None => true
  | _, _ => false
  end.

(* ------------------------------------------------------------------ *)
(** ** Handlers: state and exceptions *)

Inductive HTTPException : Type :=
| HTTPExc (status_code : Z) (detail : string).

Definition handler (A : Type) : Type := DB.t -> (HTTPException + A) * DB.t.

Definition ret {A} (a : A) : handler A := fun d => (inr a, d).

Definition raise {A} (e : HTTPException) : handler A := fun d => (inl e, d).

Definition bind {A B} (m : handler A) (k : A -> handler B) : handler B :=
  fun d =>
    match m d with
    | (inl e, d') => (inl e, d')
    | (inr a, d') => k a d'
    end.

Definition get_db : handler DB.t := fun d => (inr d, d).

Definition modify (f : DB.t -> DB.t) : handler unit := fun d => (inr tt, f d).

Declare Scope handler_scope.
Delimit Scope handler_scope with handler.
Notation "x <- m ;; k" := (bind m (fun x => k))
  (at level 100, m at next level, right associativity) : handler_scope.
Notation "m ;; k" := (bind m (fun _ => k))
  (at level 100, right associativity) : handler_scope.

(** The error kinds of the spec, as the exceptions the handlers raise. *)
Definition ValidationError_supi : HTTPException := HTTPExc 400 "supi required".
Definition ValidationError_supi_plmn : HTTPException := HTTPExc 400 "supi and plmn required".
Definition UENotRegistered : HTTPException := HTTPExc 400 "UE not registered".
Definition NoSliceAvailable : HTTPException := HTTPExc 404 "No slices configured".
Definition NotFoundError_ue : HTTPException := HTTPExc 404 "UE not found".
Definition NotFoundError_session : HTTPException := HTTPExc 404 "Session not found".
Definition AuthError : HTTPException := HTTPExc 401 "Authentication failed".

(** [create_document("logentry", LogEntry(nf=..., level="INFO", ...))]. *)
Definition log_info (nf message : string) (context : jdict) : handler unit :=
  modify (DB.with_logentry (insert_one (LogEntry.Build nf "INFO" message context))).

(* ------------------------------------------------------------------ *)
(** ** Python values *)

(** Truthiness of an optional string: [None] and [""] are falsy. *)
Definition truthy (o : option string) : option string :=
  match o with
  | Some "" => None
  | Some s => Some s
  | None => None
  end.

(** [str(n)] of an integer. *)
Definition str_of_int (n : Z) : string := NilZero.string_of_int (Z.to_int n).

(** [str(x)] of an optional string inside an f-string. *)
Definition str_of_opt (o : option string) : string :=
  match o with
  | Some s => s
  | None => "None"
  end.

(** The clock is read in microseconds since the epoch, the resolution of
    [datetime]; [int(datetime.now().timestamp())] truncates the reading to
    whole seconds.  The code goes through a double, which agrees with the
    exact quotient for readings below 2^34 seconds (the year 2514); statements
    that depend on the quotient beyond one concrete reading carry that
    bound. *)
Definition timestamp_seconds (now : Z) : Z := Z.quot now 1000000.

(* ------------------------------------------------------------------ *)
(** ** Request payloads *)

(** A payload [Dict[str, Any]], restricted to the keys the handlers read;
    a field is what [payload.get(key)] returns. *)
Module Payload.
Record t : Type := Build {
  supi : option string;
  plmn : option string;
  dnn : option string;
  slice : option string;
  ul : option Z;
  dl : option Z
}.

Definition empty : t := Build None None None None None None.

(** The same payload under another ["supi"]. *)
Definition set_supi (v : option string) (p : t) : t :=
  Build v (plmn p) (dnn p) (slice p) (ul p) (dl p).
End Payload.

(** The literal [{"supi": supi}]. *)
Definition payload_supi (s : string) : Payload.t :=
  Payload.Build (Some s) None None None None None.

(** The literal [{"supi": supi, "plmn": plmn}]. *)
Definition payload_flow (s p : string) : Payload.t :=
  Payload.Build (Some s) (Some p) None None None None.

(** [payload.get(key, default)]. *)
Definition get_default {A} (o : option A) (default : A) : A :=
  match o with
  | Some a => a
  | None => default
  end.

(** [o or default] on an optional string. *)
Definition or_else (o : option string) (default : string) : string :=
  match truthy o with
  | Some s => s
  | None => default
  end.

(* ------------------------------------------------------------------ *)
(** ** NSSF *)

(** [a or b] on the results of two find-one queries. *)
Definition or_find {A} (a b : option A) : option A :=
  match a with
  | Some x => Some x
  | None => b
  end.

Definition select_slice (payload : Payload.t) : handler string :=
  (let supi := Payload.supi payload in
   let plmn := Payload.plmn payload in
   db <- get_db ;;
   (* naive: pick first slice matching PLMN *)
   let sl := or_find (find_one (fun s => field_has plmn (Slice.plmns s)) (DB.slice db))
                     (find_one (fun _ => true) (DB.slice db)) in
   match sl with
   | None => raise NoSliceAvailable
   | Some sl =>
     let slice_id := Slice.slice_id sl in
     log_info "NSSF" "Slice selected" [("supi", jopt supi); ("slice", JStr slice_id)] ;;
     ret slice_id
   end)%handler.

(* ------------------------------------------------------------------ *)
(** ** UDM/AUSF *)

Definition authenticate (payload : Payload.t) : handler (string * string) :=
  (let supi := Payload.supi payload in
   db <- get_db ;;
   match find_one (fun u => field_is supi (UE.supi u)) (DB.ue db) with
   | None => raise NotFoundError_ue
   | Some _ =>
     let token := "auth-" ++ str_of_opt supi in
     log_info "UDM/AUSF" "UE authenticated" [("supi", jopt supi)] ;;
     ret ("OK", token)
   end)%handler.

(* ------------------------------------------------------------------ *)
(** ** PCF *)

Definition set_policy (rule : PolicyRule.t) : handler string :=
  (db <- get_db ;;
   let same := fun r => String.eqb (PolicyRule.policy_id rule) (PolicyRule.policy_id r) in
   action <-
     match find_one same (DB.policyrule db) with
     | Some _ =>
       modify (DB.with_policyrule (update_one same (fun _ => rule))) ;;
       ret "updated"
     | None =>
       modify (DB.with_policyrule (insert_one rule)) ;;
       ret "created"
     end ;;
   log_info "PCF" ("Policy " ++ action) [("policy_id", JStr (PolicyRule.policy_id rule))] ;;
   ret action)%handler.

Definition get_policy (policy_id : string) : handler PolicyRule.t :=
  (db <- get_db ;;
   match find_one (fun r => String.eqb policy_id (PolicyRule.policy_id r)) (DB.policyrule db) with
   | None => raise (HTTPExc 404 "Policy not found")
   | Some rule => ret rule
   end)%handler.

(* ------------------------------------------------------------------ *)
(** ** AMF *)

(** [ue.model_dump() | {"registered": True, "last_seen": now}]. *)
Definition mark_registered (now : Z) (ue : UE.t) : UE.t :=
  UE.Build (UE.supi ue) (UE.guti ue) (UE.plmn ue) (UE.slices ue) true
           (UE.amf_id ue) (Some now).

Definition amf_register_ue (now : Z) (ue : UE.t) : handler string :=
  (db <- get_db ;;
   let same := fun u => String.eqb (UE.supi ue) (UE.supi u) in
   msg <-
     match find_one same (DB.ue db) with
     | Some _ =>
       modify (DB.with_ue (update_one same (fun _ => mark_registered now ue))) ;;
       ret "updated"
     | None =>
       modify (DB.with_ue (insert_one (mark_registered now ue))) ;;
       ret "registered"
     end ;;
   log_info "AMF" ("UE " ++ msg) [("supi", JStr (UE.supi ue))] ;;
   ret msg)%handler.

(** The block "ensure UE exists (or create)" of the registration flow:
    [UE(supi=supi, plmn=plmn, registered=False)] with the schema's defaults. *)
Definition ensure_ue (supi plmn : string) : handler unit :=
  (db <- get_db ;;
   match find_one (fun u => String.eqb supi (UE.supi u)) (DB.ue db) with
   | Some _ => ret tt
   | None =>
     modify (DB.with_ue (insert_one (UE.Build supi None plmn [] false None None)))
   end)%handler.

(** [{"$set": {"registered": True, "last_seen": now, "slices": [slice],
    "amf_id": "amf-1"}}]. *)
Definition set_registration (now : Z) (slice_id : string) (u : UE.t) : UE.t :=
  UE.Build (UE.supi u) (UE.guti u) (UE.plmn u) [slice_id] true (Some "amf-1") (Some now).

Definition ue_registration_flow (now : Z) (payload : Payload.t) : handler (string * string) :=
  (match truthy (Payload.supi payload), truthy (Payload.plmn payload) with
   | Some supi, Some plmn =>
     (* ensure UE exists (or create) *)
     ensure_ue supi plmn ;;
     (* authenticate *)
     auth <- authenticate (payload_supi supi) ;;
     if negb (String.eqb (fst auth) "OK") then raise AuthError else
     (* slice selection *)
     sl <- select_slice (payload_flow supi plmn) ;;
     (* update UE registration *)
     modify (DB.with_ue (update_one (fun u => String.eqb supi (UE.supi u))
                                    (set_registration now sl))) ;;
     log_info "AMF" "UE registration flow complete" [("supi", JStr supi); ("slice", JStr sl)] ;;
     ret ("OK", sl)
   | _, _ => raise ValidationError_supi_plmn
   end)%handler.

(* ------------------------------------------------------------------ *)
(** ** SMF *)

(** The hard-coded default [{"5qi": 9}]. *)
Definition default_qos : jdict := [("5qi", JNum 9)].

(** What [establish_session] returns: [{"result", "session_id", "upf", "qos"}]. *)
Module Established.
Record t : Type := Build {
  result : string;
  session_id : string;
  upf : string;
  qos : jdict
}.
End Established.

(** [(ue.get("slices") or ["default"])[0]]. *)
Definition first_slice (slices : list string) : string :=
  match slices with
  | s :: _ => s
  | [] => "default"
  end.

(** [f"sess-{supi}-{int(datetime.now().timestamp())}"]. *)
Definition new_session_id (supi : string) (now : Z) : string :=
  "sess-" ++ supi ++ "-" ++ str_of_int (timestamp_seconds now).

Definition establish_session (now : Z) (payload : Payload.t) : handler Established.t :=
  (let supi := Payload.supi payload in
   let dnn := get_default (Payload.dnn payload) "internet" in
   let s_nssai := Payload.slice payload in
   match truthy supi with
   | None => raise ValidationError_supi
   | Some supi =>
     db <- get_db ;;
     match find_one (fun u => String.eqb supi (UE.supi u) && Bool.eqb (UE.registered u) true)
                    (DB.ue db) with
     | None => raise UENotRegistered
     | Some ue =>
       (* get a policy *)
       let pol := find_one (fun _ => true) (DB.policyrule db) in
       let qos := match pol with Some p => PolicyRule.qos p | None => default_qos end in
       (* select UPF (first available) *)
       let upf_svc := find_one (fun s => String.eqb (NFService.nf_type s) "UPF")
                               (DB.nfservice db) in
       let upf_id := match upf_svc with Some s => NFService.nf_id s | None => "upf-1" end in
       (* create session *)
       let sess := PDUSession.Build (new_session_id supi now) supi dnn
                     (or_else s_nssai (first_slice (UE.slices ue)))
                     (Some "smf-1") (Some upf_id) "ACTIVE" qos 0 0 in
       modify (DB.with_pdusession (insert_one sess)) ;;
       (* install to UPF *)
       modify (DB.with_upfstate
                 (upsert_one (fun st => opt_eqb (Some upf_id) (UPFState.upf_id st))
                             (fun st => st)
                             (UPFState.Build (Some upf_id) 0 0))) ;;
       log_info "SMF" "Session established"
                [("session_id", JStr (PDUSession.session_id sess))] ;;
       ret (Established.Build "OK" (PDUSession.session_id sess) upf_id qos)
     end
   end)%handler.

(* ------------------------------------------------------------------ *)
(** ** UPF *)

(** [{"$inc": {"ul_bytes": ul, "dl_bytes": dl}}] on a session. *)
Definition inc_session (ul dl : Z) (s : PDUSession.t) : PDUSession.t :=
  PDUSession.Build (PDUSession.session_id s) (PDUSession.supi s) (PDUSession.dnn s)
                   (PDUSession.s_nssai s) (PDUSession.smf_id s) (PDUSession.upf_id s)
                   (PDUSession.state s) (PDUSession.qos_rules s)
                   (PDUSession.ul_bytes s + ul) (PDUSession.dl_bytes s + dl).

(** The same increment on a UPF aggregate. *)
Definition inc_upf (ul dl : Z) (st : UPFState.t) : UPFState.t :=
  UPFState.Build (UPFState.upf_id st) (UPFState.ul_bytes st + ul) (UPFState.dl_bytes st + dl).

Definition simulate_traffic (session_id : string) (payload : Payload.t) : handler string :=
  (let ul := get_default (Payload.ul payload) 1000 in
   let dl := get_default (Payload.dl payload) 2000 in
   db <- get_db ;;
   let same := fun s => String.eqb session_id (PDUSession.session_id s) in
   match find_one same (DB.pdusession db) with
   | None => raise NotFoundError_session
   | Some sess =>
     modify (DB.with_pdusession (update_one same (inc_session ul dl))) ;;
     (* [sess.get("upf_id", "upf-1")]: a stored session always has the key,
        with a null value when no UPF was given *)
     let upf_id := PDUSession.upf_id sess in
     modify (DB.with_upfstate
               (upsert_one (fun st => opt_eqb upf_id (UPFState.upf_id st))
                           (inc_upf ul dl)
                           (UPFState.Build upf_id ul dl))) ;;
     log_info "UPF" "Traffic simulated"
              [("session_id", JStr session_id); ("ul", JNum ul); ("dl", JNum dl)] ;;
     ret "ok"
   end)%handler.

(** [upf_counters]: every UPF aggregate. *)
Definition upf_counters : handler (list UPFState.t) :=
  (db <- get_db ;; ret (DB.upfstate db))%handler.


(* ------------------------------------------------------------------ *)
(** ** NRF *)

Definition with_nfservice (f : list NFService.t -> list NFService.t) (d : DB.t) : DB.t :=
  DB.Build (DB.ue d) (DB.slice d) (DB.policyrule d) (DB.pdusession d)
           (f (DB.nfservice d)) (DB.upfstate d) (DB.logentry d).

Definition nrf_register (service : NFService.t) : handler string :=
  (db <- get_db ;;
   let same := fun s => String.eqb (NFService.nf_id service) (NFService.nf_id s) in
   match find_one same (DB.nfservice db) with
   | Some _ =>
     modify (with_nfservice (update_one same (fun _ => service))) ;;
     ret "updated"
   | None =>
     modify (with_nfservice (insert_one service)) ;;
     ret "registered"
   end)%handler.

(** Modelled from the spec: [get_documents(collection, {})], the find-many of
    the Repository under the empty filter, returns the whole collection. *)
Definition nrf_services : handler (list NFService.t) :=
  (db <- get_db ;; ret (DB.nfservice db))%handler.

(* ------------------------------------------------------------------ *)
(** ** SMF: direct session creation *)

(** [session.qos_rules = ...] on the request's session. *)
Definition with_qos_rules (qos : jdict) (s : PDUSession.t) : PDUSession.t :=
  PDUSession.Build (PDUSession.session_id s) (PDUSession.supi s) (PDUSession.dnn s)
                   (PDUSession.s_nssai s) (PDUSession.smf_id s) (PDUSession.upf_id s)
                   (PDUSession.state s) qos
                   (PDUSession.ul_bytes s) (PDUSession.dl_bytes s).

Definition create_pdu_session (session : PDUSession.t) : handler string :=
  (db <- get_db ;;
   (* attach policy *)
   let policy := find_one (fun _ => true) (DB.policyrule db) in
   let session := with_qos_rules
                    (match policy with
                     | Some p => PolicyRule.qos p
                     | None => default_qos
                     end) session in
   modify (DB.with_pdusession (insert_one session)) ;;
   log_info "SMF" "PDU session created"
            [("session_id", JStr (PDUSession.session_id session));
             ("supi", JStr (PDUSession.supi session))] ;;
   ret "created")%handler.
(* ------------------------------------------------------------------ *)
(** ** Concrete requests and stores *)

Definition payload_traffic (ul dl : Z) : Payload.t :=
  Payload.Build None None None None (Some ul) (Some dl).

Definition db_one_slice : DB.t :=
  DB.Build [] [Slice.Build "1" "eMBB" None None ["001-01"]] [] [] [] [] [].


(** A store whose only slice does not allow PLMN 001-01. *)
Definition db_other_slice : DB.t :=
  DB.Build [] [Slice.Build "2" "URLLC" None None ["999-99"]] [] [] [] [] [].

(** A store without slices in which imsi-1 was registered through
    [amf_register_ue]. *)
Definition db_registered_no_slice : DB.t :=
  DB.Build [UE.Build "imsi-1" None "001-01" [] true None (Some 1700000000000000)]
           [] [] [] [] [] [].

(** The record a first contact of imsi-1 presents. *)
Definition ue_imsi1 : UE.t := UE.Build "imsi-1" None "001-01" [] false None None.

(** A store in which imsi-1 is registered on slice 1. *)
Definition db_registered : DB.t :=
  DB.Build [UE.Build "imsi-1" None "001-01" ["1"] true (Some "amf-1")
                     (Some 1700000000000000)]
           [Slice.Build "1" "eMBB" None None ["001-01"]] [] [] [] [] [].

(** A store in which imsi-1 is known and not registered. *)
Definition db_unregistered : DB.t :=
  DB.Build [ue_imsi1] [] [] [] [] [] [].

(** A request for a session that gives an empty ["slice"]. *)
Definition payload_empty_slice : Payload.t :=
  Payload.Build (Some "imsi-1") None None (Some "") None None.

(** A policy that replaces the default QoS. *)
Definition gold_policy : PolicyRule.t :=
  PolicyRule.Build "gold" None [("5qi", JNum 1); ("mbr_ul", JStr "100Mbps")] [].

(** What the first session of imsi-1 looks like on [db_registered]. *)
Definition established_imsi1 : Established.t :=
  Established.Build "OK" "sess-imsi-1-1700000005" "upf-1" default_qos.

(** The store right after the first session of imsi-1 was established. *)
Definition db_session : DB.t :=
  snd (establish_session 1700000005250000 (payload_supi "imsi-1") db_registered).

(* ------------------------------------------------------------------ *)
(** ** Auxiliary notions for the statements *)

(** The slice the two queries of [select_slice] settle on. *)
Definition chosen_slice (plmn : option string) (c : list Slice.t) : option Slice.t :=
  or_find (find_one (fun s => field_has plmn (Slice.plmns s)) c)
          (find_one (fun _ => true) c).

(** The UE record of a subscriber, as the store's find-one sees it. *)
Definition ue_of (supi : string) (d : DB.t) : option UE.t :=
  find_one (fun u => String.eqb supi (UE.supi u)) (DB.ue d).

(** The session of an identifier, as the store's find-one sees it. *)
Definition session_of (session_id : string) (d : DB.t) : option PDUSession.t :=
  find_one (fun s => String.eqb session_id (PDUSession.session_id s)) (DB.pdusession d).

(** The aggregate counters of a UPF, zero while it has no record. *)
Definition upf_of (upf_id : option string) (d : DB.t) : option UPFState.t :=
  find_one (fun st => opt_eqb upf_id (UPFState.upf_id st)) (DB.upfstate d).

Definition upf_ul (upf_id : option string) (d : DB.t) : Z :=
  match upf_of upf_id d with
  | Some st => UPFState.ul_bytes st
  | None => 0
  end.

Definition upf_dl (upf_id : option string) (d : DB.t) : Z :=
  match upf_of upf_id d with
  | Some st => UPFState.dl_bytes st
  | None => 0
  end.

(** The store after the block "ensure UE exists (or create)". *)
Definition after_ensure_ue (supi plmn : string) (d : DB.t) : DB.t :=
  snd (ensure_ue supi plmn d).

(** The store after a successful authentication of [supi]. *)
Definition after_authenticate (supi : string) (d : DB.t) : DB.t :=
  DB.with_logentry
    (insert_one (LogEntry.Build "UDM/AUSF" "INFO" "UE authenticated" [("supi", JStr supi)])) d.

(** The registered UE record of a subscriber: the filter
    [{"supi": supi, "registered": True}]. *)
Definition registered_ue_of (supi : string) (d : DB.t) : option UE.t :=
  find_one (fun u => String.eqb supi (UE.supi u) && Bool.eqb (UE.registered u) true)
           (DB.ue d).

(** The policy snapshot a session gets on a store. *)
Definition policy_snapshot (d : DB.t) : jdict :=
  match find_one (fun _ => true) (DB.policyrule d) with
  | Some p => PolicyRule.qos p
  | None => default_qos
  end.

(** The UPF a session is placed on. *)
Definition resolved_upf (d : DB.t) : string :=
  match find_one (fun s => String.eqb (NFService.nf_type s) "UPF") (DB.nfservice d) with
  | Some s => NFService.nf_id s
  | None => "upf-1"
  end.

(** The session record [establish_session] builds for a registered UE. *)
Definition session_for (now : Z) (payload : Payload.t) (supi : string) (ue : UE.t)
           (d : DB.t) : PDUSession.t :=
  PDUSession.Build (new_session_id supi now) supi
                   (get_default (Payload.dnn payload) "internet")
                   (or_else (Payload.slice payload) (first_slice (UE.slices ue)))
                   (Some "smf-1") (Some (resolved_upf d)) "ACTIVE" (policy_snapshot d) 0 0.

(** The store after a session was established. *)
Definition after_establish (sess : PDUSession.t) (upf_id : string) (d : DB.t) : DB.t :=
  DB.with_logentry
    (insert_one (LogEntry.Build "SMF" "INFO" "Session established"
                   [("session_id", JStr (PDUSession.session_id sess))]))
    (DB.with_upfstate
       (upsert_one (fun st => opt_eqb (Some upf_id) (UPFState.upf_id st))
                   (fun st => st) (UPFState.Build (Some upf_id) 0 0))
       (DB.with_pdusession (insert_one sess) d)).

(** The store after traffic was applied to the session [sess] found under
    [session_id]. *)
Definition after_traffic (session_id : string) (sess : PDUSession.t) (ul dl : Z)
           (d : DB.t) : DB.t :=
  DB.with_logentry
    (insert_one (LogEntry.Build "UPF" "INFO" "Traffic simulated"
                   [("session_id", JStr session_id); ("ul", JNum ul); ("dl", JNum dl)]))
    (DB.with_upfstate
       (upsert_one (fun st => opt_eqb (PDUSession.upf_id sess) (UPFState.upf_id st))
                   (inc_upf ul dl)
                   (UPFState.Build (PDUSession.upf_id sess) ul dl))
       (DB.with_pdusession
          (update_one (fun s => String.eqb session_id (PDUSession.session_id s))
                      (inc_session ul dl)) d)).

(** The stored NF services of an instance identifier. *)
Definition service_of (nf_id : string) (d : DB.t) : option NFService.t :=
  find_one (fun s => String.eqb nf_id (NFService.nf_id s)) (DB.nfservice d).

(** The stored policy of an identifier, as [get_policy] looks it up. *)
Definition policy_of (policy_id : string) (d : DB.t) : option PolicyRule.t :=
  find_one (fun r => String.eqb policy_id (PolicyRule.policy_id r)) (DB.policyrule d).

(** The log of [d'] is the log of [d] with [n] entries appended. *)
Definition log_grows (n : nat) (d d' : DB.t) : Prop :=
  exists entries, List.length entries = n /\
                  DB.logentry d' = (DB.logentry d ++ entries)%list.

(** Uplink and downlink bytes counted on the sessions placed on a UPF. *)
Fixpoint sessions_ul (upf_id : option string) (c : list PDUSession.t) : Z :=
  match c with
  | [] => 0
  | s :: c' =>
    (if opt_eqb upf_id (PDUSession.upf_id s) then PDUSession.ul_bytes s else 0)
    + sessions_ul upf_id c'
  end.

Fixpoint sessions_dl (upf_id : option string) (c : list PDUSession.t) : Z :=
  match c with
  | [] => 0
  | s :: c' =>
    (if opt_eqb upf_id (PDUSession.upf_id s) then PDUSession.dl_bytes s else 0)
    + sessions_dl upf_id c'
  end.

(** A session without its byte counters. *)
Definition without_counters (s : PDUSession.t) : PDUSession.t :=
  PDUSession.Build (PDUSession.session_id s) (PDUSession.supi s) (PDUSession.dnn s)
                   (PDUSession.s_nssai s) (PDUSession.smf_id s) (PDUSession.upf_id s)
                   (PDUSession.state s) (PDUSession.qos_rules s) 0 0.

(** A UE record seen again at [now]. *)
Definition seen_at (now : Z) (u : UE.t) : UE.t :=
  UE.Build (UE.supi u) (UE.guti u) (UE.plmn u) (UE.slices u) (UE.registered u)
           (UE.amf_id u) (Some now).

(** Concrete services. *)
Definition upf_a : NFService.t :=
  NFService.Build "UPF" "upf-a" "HEALTHY" "http://upf-a" ["n4"].

Definition upf_a_degraded : NFService.t :=
  NFService.Build "UPF" "upf-a" "DEGRADED" "http://upf-a:8080" [].

(** A second policy, under another identifier. *)
Definition silver_policy : PolicyRule.t :=
  PolicyRule.Build "silver" (Some "best effort") [("5qi", JNum 8)] [("rate", JNum 1)].

(** [gold_policy] with another QoS. *)
Definition gold_policy_v2 : PolicyRule.t :=
  PolicyRule.Build "gold" None [("5qi", JNum 2)] [].

(** A registration request for imsi-2 that brings its own slices. *)
Definition ue_imsi2 : UE.t :=
  UE.Build "imsi-2" (Some "guti-2") "001-01" ["7"; "8"] false None None.

(** Whether a string holds the separator of session identifiers. *)
Fixpoint has_dash (s : string) : bool :=
  match s with
  | EmptyString => false
  | String c s' => Ascii.eqb c "-" || has_dash s'
  end.

(** A session request as [create_pdu_session] receives it: one that names no
    UPF and brings counters and QoS of its own. *)
Definition session_direct : PDUSession.t :=
  PDUSession.Build "sess-direct" "imsi-9" "ims" "2" None None "ACTIVE"
                   [("5qi", JNum 5)] 10 20.

(** A store whose one session was created directly, with the counters the
    request brought (10 and 20). *)
Definition db_direct : DB.t := snd (create_pdu_session session_direct DB.empty).

(* ------------------------------------------------------------------ *)
(** ** Lemmas on collections *)

Section CollectionFacts.
Context {A : Type}.
Implicit Types (p : A -> bool) (f : A -> A) (c : list A).

Lemma find_one_some p c x :
  find_one p c = Some x -> In x c /\ p x = true.
Proof. apply find_some. Qed.

Lemma find_one_none p c :
  find_one p c = None <-> (forall x, In x c -> p x = false).
Proof.
  split.
  - intros H x Hx. exact (find_none p c H x Hx).
  - induction c as [|y c IH]; intros H; [reflexivity|].
    unfold find_one in *. simpl.
    rewrite (H y (or_introl eq_refl)). apply IH.
    intros x Hx. apply H. now right.
Qed.

Lemma find_one_insert p c x :
  find_one p (insert_one x c) =
    match find_one p c with
    | Some y => Some y
    | None => if p x then Some x else None
    end.
Proof.
  unfold find_one, insert_one.
  induction c as [|y c IH]; simpl.
  - reflexivity.
  - destruct (p y); [reflexivity | exact IH].
Qed.

Lemma find_one_update p f c :
  (forall x, p x = true -> p (f x) = true) ->
  find_one p (update_one p f c) = option_map f (find_one p c).
Proof.
  intros Hf. unfold find_one.
  induction c as [|y c IH]; simpl.
  - reflexivity.
  - destruct (p y) eqn:Hy; simpl.
    + now rewrite (Hf y Hy).
    + now rewrite Hy.
Qed.
End CollectionFacts.

Lemma field_has_in (p : string) (xs : list string) :
  field_has (Some p) xs = true <-> In p xs.
Proof.
  simpl. rewrite existsb_exists. split.
  - intros [x [Hx He]]. apply String.eqb_eq in He. now subst.
  - intros H. exists p. split; [exact H | apply String.eqb_refl].
Qed.

Lemma truthy_some (o : option string) (s : string) :
  truthy o = Some s <-> o = Some s /\ s <> "".
Proof.
  destruct o as [[|a t]|]; simpl; split.
  - discriminate.
  - intros [H Hn]. injection H as <-. now elim Hn.
  - intros H. injection H as <-. split; [reflexivity | discriminate].
  - intros [H _]. exact H.
  - discriminate.
  - intros [H _]. discriminate.
Qed.

(* ------------------------------------------------------------------ *)
(** ** What each handler computes *)

Ltac run_handler :=
  unfold bind, get_db, raise, ret, modify, log_info; simpl.

Lemma select_slice_run (payload : Payload.t) (d : DB.t) :
  select_slice payload d =
    match chosen_slice (Payload.plmn payload) (DB.slice d) with
    | None => (inl NoSliceAvailable, d)
    | Some sl =>
      (inr (Slice.slice_id sl),
       DB.with_logentry
         (insert_one (LogEntry.Build "NSSF" "INFO" "Slice selected"
                        [("supi", jopt (Payload.supi payload));
                         ("slice", JStr (Slice.slice_id sl))])) d)
    end.
Proof.
  unfold select_slice, chosen_slice. run_handler.
  destruct (or_find _ _); reflexivity.
Qed.

Lemma chosen_slice_in (plmn : option string) (c : list Slice.t) (sl : Slice.t) :
  chosen_slice plmn c = Some sl -> In sl c.
Proof.
  unfold chosen_slice, or_find.
  destruct (find_one (fun s => field_has plmn (Slice.plmns s)) c) eqn:E.
  - intros H. injection H as <-. now apply find_one_some in E.
  - intros H. now apply find_one_some in H.
Qed.

Lemma chosen_slice_match (plmn : option string) (c : list Slice.t) :
  (exists sl, In sl c /\ field_has plmn (Slice.plmns sl) = true) ->
  exists sl, chosen_slice plmn c = Some sl /\ In sl c /\
             field_has plmn (Slice.plmns sl) = true.
Proof.
  intros [sl0 [Hin Hm]]. unfold chosen_slice, or_find.
  destruct (find_one (fun s => field_has plmn (Slice.plmns s)) c) as [sl|] eqn:E.
  - exists sl. apply find_one_some in E. tauto.
  - rewrite find_one_none in E. rewrite (E sl0 Hin) in Hm. discriminate.
Qed.

Lemma chosen_slice_fallback (plmn : option string) (c : list Slice.t) :
  c <> [] -> exists sl, chosen_slice plmn c = Some sl /\ In sl c.
Proof.
  intros Hc. destruct (chosen_slice plmn c) as [sl|] eqn:E.
  - exists sl. split; [reflexivity | now apply chosen_slice_in in E].
  - unfold chosen_slice, or_find in E.
    destruct (find_one (fun s => field_has plmn (Slice.plmns s)) c); [discriminate|].
    destruct c; [now elim Hc | discriminate].
Qed.

(* ------------------------------------------------------------------ *)
(** ** Slice Selector *)

(** C4: [select_slice] returns a slice whose [plmns] list holds the PLMN when
    the store has one; when no slice allows the PLMN but the store has a slice
    it returns some stored slice; with no slice at all it fails with
    [NoSliceAvailable]. *)
Theorem select_slice_contract (payload : Payload.t) (plmn : string) (d : DB.t) :
  Payload.plmn payload = Some plmn ->
  ((exists sl, In sl (DB.slice d) /\ In plmn (Slice.plmns sl)) ->
   exists sl, In sl (DB.slice d) /\ In plmn (Slice.plmns sl) /\
              fst (select_slice payload d) = inr (Slice.slice_id sl)) /\
  ((forall sl, In sl (DB.slice d) -> ~ In plmn (Slice.plmns sl)) ->
   DB.slice d <> [] ->
   exists sl, In sl (DB.slice d) /\
              fst (select_slice payload d) = inr (Slice.slice_id sl)) /\
  (DB.slice d = [] -> fst (select_slice payload d) = inl NoSliceAvailable).
Proof.
  intros Hp. rewrite select_slice_run, Hp. repeat split.
  - intros [sl0 [Hin Hm]].
    destruct (chosen_slice_match (Some plmn) (DB.slice d)) as [sl [E [Hs Hh]]].
    { exists sl0. split; [exact Hin | now apply field_has_in]. }
    exists sl. rewrite E. apply field_has_in in Hh. auto.
  - intros _ Hne.
    destruct (chosen_slice_fallback (Some plmn) (DB.slice d) Hne) as [sl [E Hs]].
    exists sl. rewrite E. auto.
  - intros He. rewrite He. reflexivity.
Qed.

Lemma select_slice_contract_witness :
  (exists sl, In sl (DB.slice db_one_slice) /\ In "001-01" (Slice.plmns sl) /\
              fst (select_slice (payload_flow "imsi-1" "001-01") db_one_slice)
              = inr (Slice.slice_id sl)) /\
  (exists sl, In sl (DB.slice db_other_slice) /\
              fst (select_slice (payload_flow "imsi-1" "001-01") db_other_slice)
              = inr (Slice.slice_id sl)) /\
  fst (select_slice (payload_flow "imsi-1" "001-01") DB.empty) = inl NoSliceAvailable.
Proof.
  split; [|split].
  - apply (select_slice_contract (payload_flow "imsi-1" "001-01") "001-01"
                                 db_one_slice eq_refl).
    eexists. split; [left; reflexivity | left; reflexivity].
  - apply (select_slice_contract (payload_flow "imsi-1" "001-01") "001-01"
                                 db_other_slice eq_refl).
    + intros sl [<-|[]] [H|[]]. discriminate H.
    + discriminate.
  - apply (select_slice_contract (payload_flow "imsi-1" "001-01") "001-01"
                                 DB.empty eq_refl).
    reflexivity.
Defined.

(** The tie-break of the selector: the first slice in store order that allows
    the PLMN, else the first slice of the store. *)
Lemma select_slice_first_match (payload : Payload.t) (d : DB.t) :
  fst (select_slice payload d) =
    match chosen_slice (Payload.plmn payload) (DB.slice d) with
    | Some sl => inr (Slice.slice_id sl)
    | None => inl NoSliceAvailable
    end.
Proof.
  rewrite select_slice_run. destruct (chosen_slice _ _); reflexivity.
Qed.

(** C10: the slice [select_slice] returns does not depend on the subscriber:
    under any two values of ["supi"] the same request gets the same answer,
    and the stores differ in the log alone. *)
Theorem select_slice_ignores_supi (payload : Payload.t) (supi1 supi2 : option string)
        (d : DB.t) :
  let r1 := select_slice (Payload.set_supi supi1 payload) d in
  let r2 := select_slice (Payload.set_supi supi2 payload) d in
  fst r1 = fst r2 /\
  DB.ue (snd r1) = DB.ue (snd r2) /\
  DB.slice (snd r1) = DB.slice (snd r2) /\
  DB.policyrule (snd r1) = DB.policyrule (snd r2) /\
  DB.pdusession (snd r1) = DB.pdusession (snd r2) /\
  DB.nfservice (snd r1) = DB.nfservice (snd r2) /\
  DB.upfstate (snd r1) = DB.upfstate (snd r2).
Proof.
  cbv zeta. rewrite !select_slice_run. simpl.
  destruct (chosen_slice _ _); simpl; repeat split; reflexivity.
Qed.

(* ------------------------------------------------------------------ *)
(** ** Registration Orchestrator *)

Lemma ensure_ue_run (supi plmn : string) (d : DB.t) :
  ensure_ue supi plmn d = (inr tt, after_ensure_ue supi plmn d).
Proof.
  unfold after_ensure_ue, ensure_ue. run_handler.
  destruct (find_one _ _); reflexivity.
Qed.

Lemma after_ensure_ue_found (supi plmn : string) (d : DB.t) :
  ue_of supi (after_ensure_ue supi plmn d) =
    match ue_of supi d with
    | Some u => Some u
    | None => Some (UE.Build supi None plmn [] false None None)
    end.
Proof.
  unfold after_ensure_ue, ensure_ue, ue_of. run_handler.
  destruct (find_one _ (DB.ue d)) eqn:E; simpl.
  - exact E.
  - rewrite find_one_insert, E. simpl. now rewrite String.eqb_refl.
Qed.

Lemma after_ensure_ue_frame (supi plmn : string) (d : DB.t) :
  let d' := after_ensure_ue supi plmn d in
  DB.slice d' = DB.slice d /\ DB.policyrule d' = DB.policyrule d /\
  DB.pdusession d' = DB.pdusession d /\ DB.nfservice d' = DB.nfservice d /\
  DB.upfstate d' = DB.upfstate d /\ DB.logentry d' = DB.logentry d.
Proof.
  unfold after_ensure_ue, ensure_ue. run_handler.
  destruct (find_one _ _); simpl; repeat split; reflexivity.
Qed.

Lemma authenticate_run (supi : string) (d : DB.t) :
  authenticate (payload_supi supi) d =
    match ue_of supi d with
    | Some _ => (inr ("OK", "auth-" ++ supi), after_authenticate supi d)
    | None => (inl NotFoundError_ue, d)
    end.
Proof.
  unfold authenticate, ue_of. run_handler.
  destruct (find_one _ _); reflexivity.
Qed.

(** The registration flow, step by step: after the guard on the payload the UE
    record is ensured, authentication then always succeeds, and the outcome is
    decided by slice selection. *)
Lemma ue_registration_flow_run (now : Z) (payload : Payload.t) (supi plmn : string)
      (d : DB.t) :
  truthy (Payload.supi payload) = Some supi ->
  truthy (Payload.plmn payload) = Some plmn ->
  let d2 := after_authenticate supi (after_ensure_ue supi plmn d) in
  ue_registration_flow now payload d =
    match chosen_slice (Some plmn) (DB.slice d) with
    | None => (inl NoSliceAvailable, d2)
    | Some sl =>
      let slice_id := Slice.slice_id sl in
      (inr ("OK", slice_id),
       DB.with_logentry
         (insert_one (LogEntry.Build "AMF" "INFO" "UE registration flow complete"
                        [("supi", JStr supi); ("slice", JStr slice_id)]))
         (DB.with_ue
            (update_one (fun u => String.eqb supi (UE.supi u))
                        (set_registration now slice_id))
            (DB.with_logentry
               (insert_one (LogEntry.Build "NSSF" "INFO" "Slice selected"
                              [("supi", JStr supi); ("slice", JStr slice_id)])) d2)))
    end.
Proof.
  intros Hs Hp. cbv zeta.
  unfold ue_registration_flow. rewrite Hs, Hp.
  unfold bind at 1. rewrite ensure_ue_run.
  unfold bind at 1. rewrite authenticate_run, after_ensure_ue_found.
  assert (Hslice : DB.slice (after_authenticate supi (after_ensure_ue supi plmn d))
                   = DB.slice d).
  { simpl. apply after_ensure_ue_frame. }
  destruct (ue_of supi d); simpl;
    unfold bind at 1; rewrite select_slice_run; simpl Payload.plmn;
    rewrite Hslice; destruct (chosen_slice _ _); reflexivity.
Qed.

Lemma ue_of_after_authenticate (s supi : string) (d : DB.t) :
  ue_of s (after_authenticate supi d) = ue_of s d.
Proof. reflexivity. Qed.

Lemma ue_registration_flow_invalid (now : Z) (payload : Payload.t) (d : DB.t) :
  truthy (Payload.supi payload) = None \/ truthy (Payload.plmn payload) = None ->
  ue_registration_flow now payload d = (inl ValidationError_supi_plmn, d).
Proof.
  unfold ue_registration_flow.
  intros [H|H]; rewrite H; [|destruct (truthy (Payload.supi payload))]; reflexivity.
Qed.

(** C2: when the registration flow succeeds for a payload that has both
    ["supi"] and ["plmn"], it returns [("OK", slice)] where [slice] is what the
    Slice Selector answers on the store, and the UE record of the subscriber is
    then registered, with [slices = [slice]] and [amf_id = "amf-1"]. *)
Theorem ue_registration_flow_success (now : Z) (payload : Payload.t)
        (supi plmn : string) (d d' : DB.t) (r : string * string) :
  Payload.supi payload = Some supi ->
  Payload.plmn payload = Some plmn ->
  ue_registration_flow now payload d = (inr r, d') ->
  fst r = "OK" /\
  fst (select_slice payload d) = inr (snd r) /\
  exists u, ue_of supi d' = Some u /\
            UE.registered u = true /\
            UE.slices u = [snd r] /\
            UE.amf_id u = Some "amf-1" /\
            UE.last_seen u = Some now.
Proof.
  intros Hs Hp Hrun.
  destruct (truthy (Payload.supi payload)) as [s|] eqn:Ts.
  2:{ rewrite ue_registration_flow_invalid in Hrun by now left. discriminate. }
  destruct (truthy (Payload.plmn payload)) as [p|] eqn:Tp.
  2:{ rewrite ue_registration_flow_invalid in Hrun by now right. discriminate. }
  assert (s = supi) by (apply truthy_some in Ts; destruct Ts; congruence).
  assert (p = plmn) by (apply truthy_some in Tp; destruct Tp; congruence).
  subst s p.
  rewrite (ue_registration_flow_run now payload supi plmn d Ts Tp) in Hrun.
  rewrite select_slice_run, Hp.
  destruct (chosen_slice (Some plmn) (DB.slice d)) as [sl|]; [|discriminate].
  injection Hrun as <- <-. simpl fst. simpl snd.
  repeat split.
  unfold ue_of. simpl DB.ue.
  rewrite find_one_update by (intros x Hx; exact Hx).
  fold (ue_of supi (after_ensure_ue supi plmn d)).
  rewrite after_ensure_ue_found.
  destruct (ue_of supi d) as [u|]; eexists; (split; [reflexivity|]);
    repeat split; reflexivity.
Qed.

Lemma ue_registration_flow_success_witness :
  let r := ("OK", "1") in
  let d' := snd (ue_registration_flow 1700000000000000 (payload_flow "imsi-1" "001-01")
                                      db_one_slice) in
  fst r = "OK" /\
  fst (select_slice (payload_flow "imsi-1" "001-01") db_one_slice) = inr (snd r) /\
  exists u, ue_of "imsi-1" d' = Some u /\
            UE.registered u = true /\
            UE.slices u = [snd r] /\
            UE.amf_id u = Some "amf-1" /\
            UE.last_seen u = Some 1700000000000000.
Proof.
  exact (ue_registration_flow_success 1700000000000000 (payload_flow "imsi-1" "001-01")
           "imsi-1" "001-01" db_one_slice _ ("OK", "1") eq_refl eq_refl eq_refl).
Defined.

(** The flow does succeed whenever both fields are given and the store has a
    slice, so the success property above is not vacuous. *)
Lemma ue_registration_flow_succeeds (now : Z) (payload : Payload.t) (supi plmn : string)
      (d : DB.t) :
  truthy (Payload.supi payload) = Some supi ->
  truthy (Payload.plmn payload) = Some plmn ->
  DB.slice d <> [] ->
  exists sl d', ue_registration_flow now payload d = (inr ("OK", sl), d').
Proof.
  intros Hs Hp Hne.
  rewrite (ue_registration_flow_run now payload supi plmn d Hs Hp).
  destruct (chosen_slice_fallback (Some plmn) (DB.slice d) Hne) as [sl [E _]].
  rewrite E. eauto.
Qed.

(** C5, as the code has it: for a non-empty [supi] and [plmn], a registration
    flow run while no slice is configured fails with [NoSliceAvailable], and
    leaves the [registered] flag of the subscriber's UE record as it was:
    [false] for a record the flow created, the former value for a record that
    existed. *)
Theorem ue_registration_flow_no_slice (now : Z) (payload : Payload.t)
        (supi plmn : string) (d : DB.t) :
  Payload.supi payload = Some supi -> supi <> "" ->
  Payload.plmn payload = Some plmn -> plmn <> "" ->
  DB.slice d = [] ->
  exists d' u,
    ue_registration_flow now payload d = (inl NoSliceAvailable, d') /\
    ue_of supi d' = Some u /\
    UE.registered u = match ue_of supi d with
                      | Some u0 => UE.registered u0
                      | None => false
                      end.
Proof.
  intros Hs Hsn Hp Hpn Hsl.
  assert (Ts : truthy (Payload.supi payload) = Some supi) by now apply truthy_some.
  assert (Tp : truthy (Payload.plmn payload) = Some plmn) by now apply truthy_some.
  rewrite (ue_registration_flow_run now payload supi plmn d Ts Tp), Hsl.
  simpl chosen_slice. cbv iota.
  eexists. 
  assert (Hu : ue_of supi (after_authenticate supi (after_ensure_ue supi plmn d)) =
               match ue_of supi d with
               | Some u => Some u
               | None => Some (UE.Build supi None plmn [] false None None)
               end)
    by (rewrite ue_of_after_authenticate; apply after_ensure_ue_found).
  destruct (ue_of supi d) as [u0|]; eexists; (split; [reflexivity|]);
    (split; [exact Hu | reflexivity]).
Qed.

Lemma ue_registration_flow_no_slice_witness :
  exists d' u,
    ue_registration_flow 1700000000000000 (payload_flow "imsi-1" "001-01") DB.empty
    = (inl NoSliceAvailable, d') /\
    ue_of "imsi-1" d' = Some u /\
    UE.registered u = false.
Proof.
  apply (ue_registration_flow_no_slice 1700000000000000 (payload_flow "imsi-1" "001-01")
                                       "imsi-1" "001-01" DB.empty);
    [reflexivity | discriminate | reflexivity | discriminate | reflexivity].
Defined.

(** C5 does not hold for every [supi] and [plmn]: an empty [supi] is refused by
    the guard on the payload before any slice is looked for, and no UE record
    is made; and a subscriber who was registered before the failed flow is
    registered after it. *)
Lemma ue_registration_flow_no_slice_counterexample :
  (DB.slice DB.empty = [] /\
   ue_registration_flow 1700000000000000 (payload_flow "" "001-01") DB.empty
   = (inl ValidationError_supi_plmn, DB.empty) /\
   ValidationError_supi_plmn <> NoSliceAvailable /\
   ue_of "" DB.empty = None) /\
  (DB.slice db_registered_no_slice = [] /\
   fst (ue_registration_flow 1700000060000000 (payload_flow "imsi-1" "001-01")
                             db_registered_no_slice)
   = inl NoSliceAvailable /\
   option_map UE.registered
     (ue_of "imsi-1"
        (snd (ue_registration_flow 1700000060000000 (payload_flow "imsi-1" "001-01")
                                   db_registered_no_slice)))
   = Some true).
Proof.
  split; [split; [|split; [|split]] | split; [|split]];
    try reflexivity; discriminate.
Qed.

Lemma amf_register_ue_run (now : Z) (ue : UE.t) (d : DB.t) :
  ue_of (UE.supi ue) (snd (amf_register_ue now ue d)) = Some (mark_registered now ue).
Proof.
  unfold amf_register_ue, ue_of. run_handler.
  destruct (find_one _ (DB.ue d)) eqn:E; simpl.
  - rewrite find_one_update by (intros; simpl; apply String.eqb_refl).
    now rewrite E.
  - rewrite find_one_insert, E. simpl. now rewrite String.eqb_refl.
Qed.

(** C9, as the code has it: the record the registration flow creates for an
    unknown subscriber has [registered = false], and after the flow it is
    registered exactly when the flow succeeded; the record [amf_register_ue]
    creates for an unknown subscriber has [registered = true] at once. *)
Theorem ue_first_created (now : Z) (payload : Payload.t) (supi plmn : string)
        (d : DB.t) :
  Payload.supi payload = Some supi -> supi <> "" ->
  Payload.plmn payload = Some plmn -> plmn <> "" ->
  ue_of supi d = None ->
  ue_of supi (after_ensure_ue supi plmn d)
  = Some (UE.Build supi None plmn [] false None None) /\
  (exists u, ue_of supi (snd (ue_registration_flow now payload d)) = Some u /\
             UE.registered u =
               match fst (ue_registration_flow now payload d) with
               | inr _ => true
               | inl _ => false
               end) /\
  (forall ue, UE.supi ue = supi ->
     exists u, ue_of supi (snd (amf_register_ue now ue d)) = Some u /\
               UE.registered u = true).
Proof.
  intros Hs Hsn Hp Hpn Hnone.
  assert (Ts : truthy (Payload.supi payload) = Some supi) by now apply truthy_some.
  assert (Tp : truthy (Payload.plmn payload) = Some plmn) by now apply truthy_some.
  assert (Hu : ue_of supi (after_ensure_ue supi plmn d)
               = Some (UE.Build supi None plmn [] false None None))
    by now rewrite after_ensure_ue_found, Hnone.
  split; [exact Hu | split].
  - rewrite (ue_registration_flow_run now payload supi plmn d Ts Tp).
    destruct (chosen_slice (Some plmn) (DB.slice d)) as [sl|]; simpl fst; simpl snd.
    + unfold ue_of. simpl DB.ue.
      rewrite find_one_update by (intros x Hx; exact Hx).
      fold (ue_of supi (after_ensure_ue supi plmn d)). rewrite Hu.
      eexists. split; reflexivity.
    + rewrite ue_of_after_authenticate, Hu. eexists. split; reflexivity.
  - intros ue <-. rewrite amf_register_ue_run. eexists. split; reflexivity.
Qed.

Lemma ue_first_created_witness :
  ue_of "imsi-1" (after_ensure_ue "imsi-1" "001-01" db_one_slice)
  = Some ue_imsi1 /\
  (exists u, ue_of "imsi-1" (snd (ue_registration_flow 1700000000000000
                                    (payload_flow "imsi-1" "001-01") db_one_slice))
             = Some u /\
             UE.registered u =
               match fst (ue_registration_flow 1700000000000000
                            (payload_flow "imsi-1" "001-01") db_one_slice) with
               | inr _ => true
               | inl _ => false
               end) /\
  (forall ue, UE.supi ue = "imsi-1" ->
     exists u, ue_of "imsi-1" (snd (amf_register_ue 1700000000000000 ue db_one_slice))
               = Some u /\
               UE.registered u = true).
Proof.
  apply (ue_first_created 1700000000000000 (payload_flow "imsi-1" "001-01")
                          "imsi-1" "001-01" db_one_slice);
    [reflexivity | discriminate | reflexivity | discriminate | reflexivity].
Defined.

(** C9 does not hold for [amf_register_ue]: the record it creates for an
    unknown subscriber is registered from the start, whatever the request
    says. *)
Lemma amf_register_ue_counterexample :
  ue_of "imsi-1" DB.empty = None /\
  UE.registered ue_imsi1 = false /\
  DB.ue (snd (amf_register_ue 1700000000000000 ue_imsi1 DB.empty))
  = [UE.Build "imsi-1" None "001-01" [] true None (Some 1700000000000000)].
Proof. repeat split. Qed.

(* ------------------------------------------------------------------ *)
(** ** Session Orchestrator *)

Lemma establish_session_run (now : Z) (payload : Payload.t) (supi : string) (d : DB.t) :
  truthy (Payload.supi payload) = Some supi ->
  establish_session now payload d =
    match registered_ue_of supi d with
    | None => (inl UENotRegistered, d)
    | Some ue =>
      let sess := session_for now payload supi ue d in
      (inr (Established.Build "OK" (PDUSession.session_id sess) (resolved_upf d)
                              (policy_snapshot d)),
       after_establish sess (resolved_upf d) d)
    end.
Proof.
  intros Hs. unfold establish_session, registered_ue_of. rewrite Hs. run_handler.
  destruct (find_one _ (DB.ue d)); reflexivity.
Qed.

Lemma establish_session_no_supi (now : Z) (payload : Payload.t) (d : DB.t) :
  truthy (Payload.supi payload) = None ->
  establish_session now payload d = (inl ValidationError_supi, d).
Proof. intros Hs. unfold establish_session. now rewrite Hs. Qed.

(** A refused request writes nothing at all. *)
Lemma establish_session_failure_frame (now : Z) (payload : Payload.t) (d d' : DB.t)
      (e : HTTPException) :
  establish_session now payload d = (inl e, d') -> d' = d.
Proof.
  destruct (truthy (Payload.supi payload)) as [supi|] eqn:Hs.
  - rewrite (establish_session_run now payload supi d Hs).
    destruct (registered_ue_of supi d); [discriminate|].
    intros H. now injection H.
  - rewrite (establish_session_no_supi now payload d Hs).
    intros H. now injection H.
Qed.

(** C1, as the code has it: for a non-empty [supi], when the store has no UE
    record of that [supi] or every such record has [registered = false],
    [establish_session] fails with [UENotRegistered] and leaves the store, and
    so the [pdusession] collection, as it was. *)
Theorem establish_session_unregistered (now : Z) (payload : Payload.t) (supi : string)
        (d : DB.t) :
  Payload.supi payload = Some supi -> supi <> "" ->
  (forall u, In u (DB.ue d) -> UE.supi u = supi -> UE.registered u = false) ->
  establish_session now payload d = (inl UENotRegistered, d) /\
  DB.pdusession (snd (establish_session now payload d)) = DB.pdusession d.
Proof.
  intros Hs Hn Hreg.
  assert (Ts : truthy (Payload.supi payload) = Some supi) by now apply truthy_some.
  rewrite (establish_session_run now payload supi d Ts).
  assert (E : registered_ue_of supi d = None).
  { apply find_one_none. intros u Hu.
    destruct (String.eqb supi (UE.supi u)) eqn:Eq; [|reflexivity].
    apply String.eqb_eq in Eq. rewrite (Hreg u Hu (eq_sym Eq)). reflexivity. }
  rewrite E. split; reflexivity.
Qed.

Lemma establish_session_unregistered_witness :
  (establish_session 1700000000000000 (payload_supi "imsi-1") db_unregistered
   = (inl UENotRegistered, db_unregistered) /\
   DB.pdusession (snd (establish_session 1700000000000000 (payload_supi "imsi-1")
                                         db_unregistered))
   = DB.pdusession db_unregistered) /\
  (establish_session 1700000000000000 (payload_supi "imsi-1") DB.empty
   = (inl UENotRegistered, DB.empty) /\
   DB.pdusession (snd (establish_session 1700000000000000 (payload_supi "imsi-1")
                                         DB.empty))
   = DB.pdusession DB.empty).
Proof.
  split.
  - apply (establish_session_unregistered 1700000000000000 (payload_supi "imsi-1")
                                          "imsi-1" db_unregistered);
      [reflexivity | discriminate |].
    intros u [<-|[]] _. reflexivity.
  - apply (establish_session_unregistered 1700000000000000 (payload_supi "imsi-1")
                                          "imsi-1" DB.empty);
      [reflexivity | discriminate |].
    intros u [].
Defined.

(** C1 does not hold for every [supi]: the empty [supi], of which the store
    has no UE record, is refused by the guard on the payload with the
    validation error, not with [UENotRegistered]. *)
Lemma establish_session_unregistered_counterexample :
  ue_of "" DB.empty = None /\
  establish_session 1700000000000000 (payload_supi "") DB.empty
  = (inl ValidationError_supi, DB.empty) /\
  ValidationError_supi <> UENotRegistered.
Proof. repeat split. discriminate. Qed.

Lemma resolved_upf_spec (d : DB.t) :
  (exists svc, In svc (DB.nfservice d) /\ NFService.nf_type svc = "UPF" /\
               resolved_upf d = NFService.nf_id svc) \/
  ((forall svc, In svc (DB.nfservice d) -> NFService.nf_type svc <> "UPF") /\
   resolved_upf d = "upf-1").
Proof.
  unfold resolved_upf.
  destruct (find_one _ (DB.nfservice d)) as [svc|] eqn:E.
  - left. exists svc. apply find_one_some in E as [Hin Ht].
    apply String.eqb_eq in Ht. auto.
  - right. split; [|reflexivity].
    intros svc Hin. rewrite find_one_none in E.
    apply String.eqb_neq. exact (E svc Hin).
Qed.

Lemma policy_snapshot_spec (d : DB.t) :
  policy_snapshot d =
    match DB.policyrule d with
    | p :: _ => PolicyRule.qos p
    | [] => default_qos
    end.
Proof. unfold policy_snapshot. now destruct (DB.policyrule d). Qed.

(** What a successful call hands back and writes. *)
Lemma establish_session_inv (now : Z) (payload : Payload.t) (d d' : DB.t)
      (r : Established.t) :
  establish_session now payload d = (inr r, d') ->
  exists supi ue,
    truthy (Payload.supi payload) = Some supi /\
    registered_ue_of supi d = Some ue /\
    r = Established.Build "OK" (new_session_id supi now) (resolved_upf d)
                          (policy_snapshot d) /\
    d' = after_establish (session_for now payload supi ue d) (resolved_upf d) d.
Proof.
  destruct (truthy (Payload.supi payload)) as [supi|] eqn:Hs.
  - rewrite (establish_session_run now payload supi d Hs).
    destruct (registered_ue_of supi d) as [ue|] eqn:E; [|discriminate].
    intros H. injection H as <- <-. exists supi, ue. auto.
  - rewrite (establish_session_no_supi now payload d Hs). discriminate.
Qed.

(** C3, as the code has it: after a successful [establish_session] the UPF
    returned is the [nf_id] of a stored service of type UPF when there is one
    and ["upf-1"] otherwise; the session appended to the store has for
    [s_nssai] the request's ["slice"] when it is given and not empty, else the
    first of the UE's [slices], else ["default"]; and the QoS snapshot, on the
    session and in the answer, is the [qos] of the first stored policy, else
    the default [{"5qi": 9}], while the policy store is left as it was. *)
Theorem establish_session_result (now : Z) (payload : Payload.t) (d d' : DB.t)
        (r : Established.t) :
  establish_session now payload d = (inr r, d') ->
  ((exists svc, In svc (DB.nfservice d) /\ NFService.nf_type svc = "UPF" /\
                Established.upf r = NFService.nf_id svc) \/
   ((forall svc, In svc (DB.nfservice d) -> NFService.nf_type svc <> "UPF") /\
    Established.upf r = "upf-1")) /\
  (exists supi ue sess,
     Payload.supi payload = Some supi /\
     registered_ue_of supi d = Some ue /\
     DB.pdusession d' = (DB.pdusession d ++ [sess])%list /\
     PDUSession.session_id sess = Established.session_id r /\
     PDUSession.upf_id sess = Some (Established.upf r) /\
     PDUSession.qos_rules sess = Established.qos r /\
     PDUSession.s_nssai sess =
       match Payload.slice payload with
       | Some (String a s) => String a s
       | _ => match UE.slices ue with
              | x :: _ => x
              | [] => "default"
              end
       end) /\
  Established.qos r =
    match DB.policyrule d with
    | p :: _ => PolicyRule.qos p
    | [] => default_qos
    end /\
  DB.policyrule d' = DB.policyrule d.
Proof.
  intros Hrun.
  destruct (establish_session_inv now payload d d' r Hrun)
    as [supi [ue [Hs [Hue [-> ->]]]]].
  split; [exact (resolved_upf_spec d) | split; [|split]].
  - exists supi, ue, (session_for now payload supi ue d).
    apply truthy_some in Hs as [Hs _].
    repeat split; try assumption.
    simpl. unfold or_else, first_slice.
    destruct (Payload.slice payload) as [[|a s]|]; reflexivity.
  - exact (policy_snapshot_spec d).
  - reflexivity.
Qed.

Lemma establish_session_result_witness :
  let d' := snd (establish_session 1700000005250000 (payload_supi "imsi-1")
                                   db_registered) in
  exists sess,
    DB.pdusession d' = [sess] /\
    PDUSession.session_id sess = "sess-imsi-1-1700000005" /\
    PDUSession.upf_id sess = Some "upf-1" /\
    PDUSession.qos_rules sess = default_qos /\
    PDUSession.s_nssai sess = "1".
Proof.
  destruct (establish_session_result 1700000005250000 (payload_supi "imsi-1")
              db_registered _ established_imsi1 eq_refl)
    as [_ [[supi [ue [sess [Hs [Hue [Hp [Hid [Hu [Hq Hn]]]]]]]]] _]].
  exists sess. injection Hs as <-.
  injection Hue as <-.
  repeat split; assumption.
Defined.

(** C3 does not hold for every request that gives a ["slice"]: an empty one is
    passed over, and the session gets the first slice of the UE. *)
Lemma establish_session_result_counterexample :
  Payload.slice payload_empty_slice = Some "" /\
  establish_session 1700000005250000 payload_empty_slice db_registered
  = (inr established_imsi1,
     after_establish
       (PDUSession.Build "sess-imsi-1-1700000005" "imsi-1" "internet" "1"
                         (Some "smf-1") (Some "upf-1") "ACTIVE" default_qos 0 0)
       "upf-1" db_registered) /\
  map PDUSession.s_nssai
      (DB.pdusession (snd (establish_session 1700000005250000 payload_empty_slice
                                             db_registered)))
  = ["1"] /\
  "1" <> "".
Proof. repeat split. discriminate. Qed.

(** The Policy Provider writes to the policy store and the log alone. *)
Lemma set_policy_frame (rule : PolicyRule.t) (d : DB.t) :
  let d' := snd (set_policy rule d) in
  DB.ue d' = DB.ue d /\ DB.slice d' = DB.slice d /\
  DB.pdusession d' = DB.pdusession d /\ DB.nfservice d' = DB.nfservice d /\
  DB.upfstate d' = DB.upfstate d.
Proof.
  unfold set_policy. run_handler.
  destruct (find_one _ (DB.policyrule d)); simpl; repeat split; reflexivity.
Qed.

Lemma set_policy_stored (rule : PolicyRule.t) (d : DB.t) :
  find_one (fun r => String.eqb (PolicyRule.policy_id rule) (PolicyRule.policy_id r))
           (DB.policyrule (snd (set_policy rule d)))
  = Some rule.
Proof.
  unfold set_policy. run_handler.
  destruct (find_one _ (DB.policyrule d)) eqn:E; simpl.
  - rewrite find_one_update by (intros; apply String.eqb_refl).
    now rewrite E.
  - rewrite find_one_insert, E. now rewrite String.eqb_refl.
Qed.

(** Any number of later policy changes leaves the sessions as they are. *)
Lemma set_policy_many_frame (rules : list PolicyRule.t) (d : DB.t) :
  DB.pdusession (fold_left (fun d0 rule => snd (set_policy rule d0)) rules d)
  = DB.pdusession d.
Proof.
  revert d. induction rules as [|rule rules IH]; intros d; simpl.
  - reflexivity.
  - rewrite IH. apply set_policy_frame.
Qed.

(** C6: the session a successful [establish_session] appended carries the QoS
    snapshot of the answer, and a later [set_policy], which does store its
    rule, leaves the [pdusession] collection, and so the [qos_rules] of that
    session, as they were. *)
Theorem set_policy_keeps_snapshot (now : Z) (payload : Payload.t) (d d1 : DB.t)
        (r : Established.t) (rule : PolicyRule.t) :
  establish_session now payload d = (inr r, d1) ->
  let d2 := snd (set_policy rule d1) in
  find_one (fun p => String.eqb (PolicyRule.policy_id rule) (PolicyRule.policy_id p))
           (DB.policyrule d2) = Some rule /\
  DB.pdusession d2 = DB.pdusession d1 /\
  exists sess,
    DB.pdusession d1 = (DB.pdusession d ++ [sess])%list /\
    DB.pdusession d2 = (DB.pdusession d ++ [sess])%list /\
    PDUSession.session_id sess = Established.session_id r /\
    PDUSession.qos_rules sess = Established.qos r.
Proof.
  intros Hrun d2.
  assert (Hp : DB.pdusession d2 = DB.pdusession d1) by apply set_policy_frame.
  split; [apply set_policy_stored | split; [exact Hp|]].
  destruct (establish_session_inv now payload d d1 r Hrun)
    as [supi [ue [_ [_ [-> Hd1]]]]].
  exists (session_for now payload supi ue d).
  rewrite Hp, Hd1. repeat split.
Qed.

Lemma set_policy_keeps_snapshot_witness :
  let d1 := snd (establish_session 1700000005250000 (payload_supi "imsi-1")
                                   db_registered) in
  let d2 := snd (set_policy gold_policy d1) in
  DB.policyrule d2 = [gold_policy] /\
  map PDUSession.qos_rules (DB.pdusession d2) = [default_qos].
Proof.
  destruct (set_policy_keeps_snapshot 1700000005250000 (payload_supi "imsi-1")
              db_registered _ established_imsi1 gold_policy eq_refl)
    as [_ [Hp _]].
  split; [reflexivity | exact (f_equal (map PDUSession.qos_rules) Hp)].
Defined.

(** Session identifiers are a function of the subscriber and of the whole
    second the clock shows. *)
Lemma new_session_id_same_second (supi : string) (now1 now2 : Z) :
  timestamp_seconds now1 = timestamp_seconds now2 ->
  new_session_id supi now1 = new_session_id supi now2.
Proof. unfold new_session_id. now intros ->. Qed.

Lemma establish_session_same_second (now1 now2 : Z) (payload : Payload.t)
      (d d1 d2 : DB.t) (r1 r2 : Established.t) :
  timestamp_seconds now1 = timestamp_seconds now2 ->
  establish_session now1 payload d = (inr r1, d1) ->
  establish_session now2 payload d1 = (inr r2, d2) ->
  Established.session_id r1 = Established.session_id r2.
Proof.
  intros Ht H1 H2.
  destruct (establish_session_inv _ _ _ _ _ H1) as [s1 [u1 [Hs1 [_ [-> _]]]]].
  destruct (establish_session_inv _ _ _ _ _ H2) as [s2 [u2 [Hs2 [_ [-> _]]]]].
  simpl. assert (s1 = s2) by congruence. subst s2.
  now apply new_session_id_same_second.
Qed.

(** C8 fails on the code: two sessions established for imsi-1 at two instants
    of the same second, 0.8 s apart, both succeed and are stored under one and
    the same [session_id]. *)
Theorem establish_session_id_collision :
  let run1 := establish_session 1700000005100000 (payload_supi "imsi-1") db_registered in
  let run2 := establish_session 1700000005900000 (payload_supi "imsi-1") (snd run1) in
  fst run1 = inr established_imsi1 /\
  fst run2 = inr established_imsi1 /\
  map PDUSession.session_id (DB.pdusession (snd run2))
  = ["sess-imsi-1-1700000005"; "sess-imsi-1-1700000005"].
Proof. repeat split. Qed.

(* ------------------------------------------------------------------ *)
(** ** Traffic Simulator *)

Lemma opt_eqb_refl (a : option string) : opt_eqb a a = true.
Proof. destruct a; simpl; [apply String.eqb_refl | reflexivity]. Qed.

Lemma simulate_traffic_run (session_id : string) (payload : Payload.t) (d : DB.t) :
  simulate_traffic session_id payload d =
    match session_of session_id d with
    | None => (inl NotFoundError_session, d)
    | Some sess =>
      (inr "ok",
       after_traffic session_id sess (get_default (Payload.ul payload) 1000)
                     (get_default (Payload.dl payload) 2000) d)
    end.
Proof.
  unfold simulate_traffic, session_of. run_handler.
  destruct (find_one _ (DB.pdusession d)); reflexivity.
Qed.

Section AfterTraffic.
Variables (session_id : string) (sess : PDUSession.t) (ul dl : Z) (d : DB.t).
Hypothesis Hsess : session_of session_id d = Some sess.

Lemma session_of_after_traffic :
  session_of session_id (after_traffic session_id sess ul dl d)
  = Some (inc_session ul dl sess).
Proof.
  unfold session_of in *. simpl DB.pdusession.
  rewrite find_one_update by (intros x Hx; exact Hx).
  now rewrite Hsess.
Qed.

Lemma upf_of_after_traffic :
  upf_of (PDUSession.upf_id sess) (after_traffic session_id sess ul dl d)
  = Some match upf_of (PDUSession.upf_id sess) d with
         | Some st => inc_upf ul dl st
         | None => UPFState.Build (PDUSession.upf_id sess) ul dl
         end.
Proof.
  unfold upf_of. simpl DB.upfstate. unfold upsert_one.
  destruct (find_one _ (DB.upfstate d)) as [st|] eqn:E.
  - rewrite find_one_update by (intros x Hx; exact Hx).
    now rewrite E.
  - rewrite find_one_insert, E. simpl. now rewrite opt_eqb_refl.
Qed.

Lemma upf_ul_after_traffic :
  upf_ul (PDUSession.upf_id sess) (after_traffic session_id sess ul dl d)
  = upf_ul (PDUSession.upf_id sess) d + ul.
Proof.
  unfold upf_ul. rewrite upf_of_after_traffic.
  destruct (upf_of _ d); reflexivity.
Qed.

Lemma upf_dl_after_traffic :
  upf_dl (PDUSession.upf_id sess) (after_traffic session_id sess ul dl d)
  = upf_dl (PDUSession.upf_id sess) d + dl.
Proof.
  unfold upf_dl. rewrite upf_of_after_traffic.
  destruct (upf_of _ d); reflexivity.
Qed.
End AfterTraffic.

(** C7, as the code has it: [simulate_traffic] fails with [NotFoundError] when
    no session has the identifier; otherwise it answers ["ok"] and adds the
    given amounts, 1000 and 2000 where the payload is silent, to the counters
    of the session and to the aggregate of the UPF the session is on; two
    calls with [ul = 500] and [dl = 700] on a session whose counters are zero
    leave its counters at 1000 and 1400 and raise the aggregate of its UPF by
    as much. *)
Theorem simulate_traffic_contract (session_id : string) (payload : Payload.t)
        (d : DB.t) :
  let ul := get_default (Payload.ul payload) 1000 in
  let dl := get_default (Payload.dl payload) 2000 in
  ((forall s, In s (DB.pdusession d) -> PDUSession.session_id s <> session_id) ->
   simulate_traffic session_id payload d = (inl NotFoundError_session, d)) /\
  (forall sess, session_of session_id d = Some sess ->
     exists d' sess',
       simulate_traffic session_id payload d = (inr "ok", d') /\
       session_of session_id d' = Some sess' /\
       PDUSession.ul_bytes sess' = PDUSession.ul_bytes sess + ul /\
       PDUSession.dl_bytes sess' = PDUSession.dl_bytes sess + dl /\
       PDUSession.upf_id sess' = PDUSession.upf_id sess /\
       upf_ul (PDUSession.upf_id sess) d' = upf_ul (PDUSession.upf_id sess) d + ul /\
       upf_dl (PDUSession.upf_id sess) d' = upf_dl (PDUSession.upf_id sess) d + dl) /\
  (forall sess, session_of session_id d = Some sess ->
     PDUSession.ul_bytes sess = 0 -> PDUSession.dl_bytes sess = 0 ->
     let d1 := snd (simulate_traffic session_id (payload_traffic 500 700) d) in
     let d2 := snd (simulate_traffic session_id (payload_traffic 500 700) d1) in
     exists sess2,
       session_of session_id d2 = Some sess2 /\
       PDUSession.ul_bytes sess2 = 1000 /\
       PDUSession.dl_bytes sess2 = 1400 /\
       upf_ul (PDUSession.upf_id sess) d2 = upf_ul (PDUSession.upf_id sess) d + 1000 /\
       upf_dl (PDUSession.upf_id sess) d2 = upf_dl (PDUSession.upf_id sess) d + 1400).
Proof.
  cbv zeta. split; [|split].
  - intros Hnone. rewrite simulate_traffic_run.
    assert (E : session_of session_id d = None).
    { apply find_one_none. intros s Hs. apply String.eqb_neq.
      intros ->. now apply (Hnone s Hs). }
    now rewrite E.
  - intros sess Hsess. rewrite simulate_traffic_run, Hsess.
    do 2 eexists. split; [reflexivity|].
    split; [now apply session_of_after_traffic|].
    repeat split.
    + now apply upf_ul_after_traffic.
    + now apply upf_dl_after_traffic.
  - intros sess Hsess Hul Hdl.
    rewrite (simulate_traffic_run session_id (payload_traffic 500 700) d), Hsess.
    simpl snd.
    pose proof (session_of_after_traffic session_id sess 500 700 d Hsess) as H1.
    rewrite simulate_traffic_run, H1. simpl snd.
    eexists. split; [now apply session_of_after_traffic|].
    simpl PDUSession.ul_bytes. simpl PDUSession.dl_bytes.
    pose proof (upf_ul_after_traffic session_id (inc_session 500 700 sess) 500 700
                  (after_traffic session_id sess 500 700 d)) as Hu.
    pose proof (upf_dl_after_traffic session_id (inc_session 500 700 sess) 500 700
                  (after_traffic session_id sess 500 700 d)) as Hd.
    simpl PDUSession.upf_id in Hu, Hd. rewrite Hu, Hd.
    rewrite upf_ul_after_traffic, upf_dl_after_traffic.
    repeat split; lia.
Qed.

Lemma simulate_traffic_contract_witness :
  let d1 := snd (simulate_traffic "sess-imsi-1-1700000005" (payload_traffic 500 700)
                                  db_session) in
  let d2 := snd (simulate_traffic "sess-imsi-1-1700000005" (payload_traffic 500 700)
                                  d1) in
  exists sess2,
    session_of "sess-imsi-1-1700000005" d2 = Some sess2 /\
    PDUSession.ul_bytes sess2 = 1000 /\
    PDUSession.dl_bytes sess2 = 1400 /\
    upf_ul (Some "upf-1") d2 = upf_ul (Some "upf-1") db_session + 1000 /\
    upf_dl (Some "upf-1") d2 = upf_dl (Some "upf-1") db_session + 1400.
Proof.
  exact (proj2 (proj2 (simulate_traffic_contract "sess-imsi-1-1700000005"
                                                 Payload.empty db_session))
               (PDUSession.Build "sess-imsi-1-1700000005" "imsi-1" "internet" "1"
                                 (Some "smf-1") (Some "upf-1") "ACTIVE" default_qos 0 0)
               eq_refl eq_refl eq_refl).
Defined.

(** C7 does not hold for every session: counters are added to, not set, so two
    calls with [ul = 500] and [dl = 700] on a session stored with counters 10
    and 20 leave it at 1010 and 1420, not at 1000 and 1400. *)
Lemma simulate_traffic_contract_counterexample :
  map (fun s => (PDUSession.session_id s, PDUSession.ul_bytes s, PDUSession.dl_bytes s))
      (DB.pdusession db_direct)
  = [("sess-direct", 10, 20)] /\
  (let run1 := simulate_traffic "sess-direct" (payload_traffic 500 700) db_direct in
   let run2 := simulate_traffic "sess-direct" (payload_traffic 500 700) (snd run1) in
   fst run1 = inr "ok" /\
   fst run2 = inr "ok" /\
   map (fun s => (PDUSession.session_id s, PDUSession.ul_bytes s, PDUSession.dl_bytes s))
       (DB.pdusession (snd run2))
   = [("sess-direct", 1010, 1420)]) /\
  1010 <> 1000 /\ 1420 <> 1400.
Proof. repeat split; discriminate. Qed.

(** The three cases on the store that holds the first session of imsi-1. *)
Example simulate_traffic_on_session :
  simulate_traffic "sess-unknown" (payload_traffic 500 700) db_session
  = (inl NotFoundError_session, db_session) /\
  (let d1 := snd (simulate_traffic "sess-imsi-1-1700000005" Payload.empty db_session) in
   map (fun s => (PDUSession.ul_bytes s, PDUSession.dl_bytes s)) (DB.pdusession d1)
   = [(1000, 2000)] /\
   DB.upfstate d1 = [UPFState.Build (Some "upf-1") 1000 2000]) /\
  (let d1 := snd (simulate_traffic "sess-imsi-1-1700000005" (payload_traffic 500 700)
                                   db_session) in
   let d2 := snd (simulate_traffic "sess-imsi-1-1700000005" (payload_traffic 500 700)
                                   d1) in
   map (fun s => (PDUSession.ul_bytes s, PDUSession.dl_bytes s)) (DB.pdusession d2)
   = [(1000, 1400)] /\
   DB.upfstate d2 = [UPFState.Build (Some "upf-1") 1000 1400]).
Proof. vm_compute. repeat split. Qed.

(* ------------------------------------------------------------------ *)
(** ** More on collections: frames, counts and keys *)

Section CollectionFrames.
Context {A : Type}.
Implicit Types (p q : A -> bool) (f : A -> A) (c : list A).

Lemma update_one_length p f c : List.length (update_one p f c) = List.length c.
Proof.
  induction c as [|y c IH]; simpl; [reflexivity|].
  destruct (p y); simpl; [reflexivity | now rewrite IH].
Qed.

Lemma insert_one_length (x : A) c : List.length (insert_one x c) = S (List.length c).
Proof. unfold insert_one. rewrite List.length_app. simpl. lia. Qed.

(** An update under the filter [p] is invisible to a filter [q] that no
    document matched by [p] satisfies, before or after the update. *)
Lemma find_one_update_other p q f c :
  (forall x, p x = true -> q x = false) ->
  (forall x, p x = true -> q (f x) = false) ->
  find_one q (update_one p f c) = find_one q c.
Proof.
  intros H1 H2. unfold find_one.
  induction c as [|y c IH]; simpl; [reflexivity|].
  destruct (p y) eqn:Hy; simpl.
  - now rewrite (H1 y Hy), (H2 y Hy).
  - now rewrite IH.
Qed.

Lemma find_one_insert_other q (x : A) c :
  q x = false -> find_one q (insert_one x c) = find_one q c.
Proof.
  intros Hx. rewrite find_one_insert, Hx. now destruct (find_one q c).
Qed.

(** A key that the update keeps is kept on the whole collection. *)
Lemma map_update_one {K : Type} (k : A -> K) p f c :
  (forall x, p x = true -> k (f x) = k x) ->
  map k (update_one p f c) = map k c.
Proof.
  intros Hk. induction c as [|y c IH]; simpl; [reflexivity|].
  destruct (p y) eqn:Hy; simpl.
  - now rewrite (Hk y Hy).
  - now rewrite IH.
Qed.

Lemma filter_insert_one p (x : A) c :
  filter p (insert_one x c) = (filter p c ++ (if p x then [x] else []))%list.
Proof. unfold insert_one. rewrite filter_app. simpl. now destruct (p x). Qed.

Lemma filter_update_one p f c :
  (forall x, p x = true -> p (f x) = true) ->
  filter p (update_one p f c) =
    match filter p c with
    | [] => []
    | x :: rest => f x :: rest
    end.
Proof.
  intros Hf. induction c as [|y c IH]; simpl; [reflexivity|].
  destruct (p y) eqn:Hy; simpl.
  - now rewrite (Hf y Hy).
  - rewrite Hy. exact IH.
Qed.

Lemma filter_nil_find_one p c : filter p c = [] <-> find_one p c = None.
Proof.
  rewrite find_one_none. split.
  - intros H x Hx. destruct (p x) eqn:E; [|reflexivity].
    assert (Hin : In x (filter p c)) by (apply filter_In; auto).
    rewrite H in Hin. destruct Hin.
  - intros H. induction c as [|y c IH]; simpl; [reflexivity|].
    rewrite (H y (or_introl eq_refl)). apply IH.
    intros x Hx. apply H. now right.
Qed.
End CollectionFrames.

Section CollectionReplace.
Context {A : Type}.
Implicit Types (p q : A -> bool) (c : list A).

(** After the first match of [p] was replaced by [v], a narrower filter that
    [v] passes finds [v]. *)
Lemma find_one_replace_and p q (v : A) c :
  p v = true -> q v = true -> find_one p c <> None ->
  find_one (fun x => p x && q x) (update_one p (fun _ => v) c) = Some v.
Proof.
  intros Hp Hq. unfold find_one.
  induction c as [|y c IH]; simpl; [congruence|].
  destruct (p y) eqn:Hy; simpl.
  - now rewrite Hp, Hq.
  - rewrite Hy. exact IH.
Qed.

Lemma find_one_insert_and p q (v : A) c :
  p v = true -> q v = true -> find_one p c = None ->
  find_one (fun x => p x && q x) (insert_one v c) = Some v.
Proof.
  intros Hp Hq Hnone. rewrite find_one_insert.
  assert (E : find_one (fun x => p x && q x) c = None).
  { apply find_one_none. intros x Hx.
    rewrite find_one_none in Hnone. now rewrite (Hnone x Hx). }
  now rewrite E, Hp, Hq.
Qed.
End CollectionReplace.

Section CollectionCompose.
Context {A : Type}.
Implicit Types (p : A -> bool) (f g : A -> A) (c : list A).

Lemma update_one_twice p f g c :
  (forall x, p x = true -> p (f x) = true) ->
  update_one p g (update_one p f c) = update_one p (fun x => g (f x)) c.
Proof.
  intros Hf. induction c as [|y c IH]; simpl; [reflexivity|].
  destruct (p y) eqn:Hy; simpl.
  - now rewrite (Hf y Hy).
  - now rewrite Hy, IH.
Qed.

Lemma update_one_ext p f g c :
  (forall x, f x = g x) -> update_one p f c = update_one p g c.
Proof.
  intros Hfg. induction c as [|y c IH]; simpl; [reflexivity|].
  destruct (p y); [now rewrite Hfg | now rewrite IH].
Qed.
End CollectionCompose.

Lemma update_one_same {A : Type} (p : A -> bool) (c : list A) :
  update_one p (fun x => x) c = c.
Proof.
  induction c as [|y c IH]; simpl; [reflexivity|].
  destruct (p y); [reflexivity | now rewrite IH].
Qed.

Lemma opt_eqb_eq (a b : option string) : opt_eqb a b = true <-> a = b.
Proof.
  destruct a as [x|], b as [y|]; simpl; split; try congruence.
  - intros H. apply String.eqb_eq in H. now subst.
  - intros H. injection H as ->. apply String.eqb_refl.
Qed.

Lemma opt_eqb_neq (a b : option string) : opt_eqb a b = false <-> a <> b.
Proof.
  split.
  - intros H Heq. apply opt_eqb_eq in Heq. congruence.
  - intros H. destruct (opt_eqb a b) eqn:E; [|reflexivity].
    apply opt_eqb_eq in E. contradiction.
Qed.

(* ------------------------------------------------------------------ *)
(** ** NF Registry *)

Lemma nrf_register_run (svc : NFService.t) (d : DB.t) :
  nrf_register svc d =
    let same := fun s => String.eqb (NFService.nf_id svc) (NFService.nf_id s) in
    match service_of (NFService.nf_id svc) d with
    | Some _ => (inr "updated", with_nfservice (update_one same (fun _ => svc)) d)
    | None => (inr "registered", with_nfservice (insert_one svc) d)
    end.
Proof.
  unfold nrf_register, service_of. run_handler.
  destruct (find_one _ (DB.nfservice d)); reflexivity.
Qed.

Lemma service_of_nrf_register (svc : NFService.t) (d : DB.t) :
  service_of (NFService.nf_id svc) (snd (nrf_register svc d)) = Some svc.
Proof.
  rewrite nrf_register_run. unfold service_of.
  destruct (find_one _ (DB.nfservice d)) eqn:E; simpl.
  - rewrite find_one_update by (intros; apply String.eqb_refl). now rewrite E.
  - rewrite find_one_insert, E. now rewrite String.eqb_refl.
Qed.

(** X1: Registration answers ["updated"] exactly when the instance was known,
    adds a record only when it was not, and afterwards both the lookup by
    [nf_id] and the listing of services show the registered service. *)
Theorem nrf_register_stores (svc : NFService.t) (d : DB.t) :
  let run := nrf_register svc d in
  fst run = inr (match service_of (NFService.nf_id svc) d with
                 | Some _ => "updated"
                 | None => "registered"
                 end) /\
  List.length (DB.nfservice (snd run)) =
    match service_of (NFService.nf_id svc) d with
    | Some _ => List.length (DB.nfservice d)
    | None => S (List.length (DB.nfservice d))
    end /\
  service_of (NFService.nf_id svc) (snd run) = Some svc /\
  exists l, nrf_services (snd run) = (inr l, snd run) /\ In svc l.
Proof.
  cbv zeta. rewrite nrf_register_run. unfold nrf_services. run_handler.
  destruct (service_of (NFService.nf_id svc) d) as [s0|] eqn:E; simpl;
    unfold service_of in *; simpl.
  - assert (Hf : find_one (fun s => String.eqb (NFService.nf_id svc) (NFService.nf_id s))
                   (update_one (fun s => String.eqb (NFService.nf_id svc) (NFService.nf_id s))
                               (fun _ => svc) (DB.nfservice d)) = Some svc).
    { rewrite find_one_update by (intros; apply String.eqb_refl). now rewrite E. }
    repeat split.
    + apply update_one_length.
    + exact Hf.
    + eexists. split; [reflexivity|]. now apply find_one_some in Hf.
  - assert (Hf : find_one (fun s => String.eqb (NFService.nf_id svc) (NFService.nf_id s))
                   (insert_one svc (DB.nfservice d)) = Some svc).
    { rewrite find_one_insert, E. now rewrite String.eqb_refl. }
    repeat split.
    + apply insert_one_length.
    + exact Hf.
    + eexists. split; [reflexivity|]. now apply find_one_some in Hf.
Qed.

(** X2: Registering an unknown instance and then registering the same [nf_id]
    again answers ["registered"] and then ["updated"], and leaves exactly one
    record of that [nf_id]: the second service. *)
Theorem nrf_register_twice (svc svc2 : NFService.t) (d : DB.t) :
  NFService.nf_id svc2 = NFService.nf_id svc ->
  (forall s, In s (DB.nfservice d) -> NFService.nf_id s <> NFService.nf_id svc) ->
  let run1 := nrf_register svc d in
  let run2 := nrf_register svc2 (snd run1) in
  fst run1 = inr "registered" /\
  fst run2 = inr "updated" /\
  filter (fun s => String.eqb (NFService.nf_id svc) (NFService.nf_id s))
         (DB.nfservice (snd run2)) = [svc2] /\
  List.length (DB.nfservice (snd run2)) = S (List.length (DB.nfservice d)).
Proof.
  intros Hid Hnew. cbv zeta.
  assert (E : service_of (NFService.nf_id svc) d = None).
  { apply find_one_none. intros s Hs. apply String.eqb_neq.
    intros Heq. now apply (Hnew s Hs). }
  rewrite (nrf_register_run svc d), E. simpl fst. simpl snd.
  assert (E1 : service_of (NFService.nf_id svc2) (with_nfservice (insert_one svc) d)
               = Some svc).
  { unfold service_of in *. simpl. rewrite Hid, find_one_insert, E.
    now rewrite String.eqb_refl. }
  rewrite nrf_register_run, E1. simpl fst. simpl snd. simpl DB.nfservice.
  repeat split.
  - rewrite Hid.
    rewrite filter_update_one by (intros; rewrite <- Hid; apply String.eqb_refl).
    rewrite filter_insert_one, String.eqb_refl.
    apply filter_nil_find_one in E. unfold service_of in E. now rewrite E.
  - now rewrite update_one_length, insert_one_length.
Qed.

Lemma nrf_register_twice_witness :
  let run1 := nrf_register upf_a DB.empty in
  let run2 := nrf_register upf_a_degraded (snd run1) in
  fst run1 = inr "registered" /\
  fst run2 = inr "updated" /\
  filter (fun s => String.eqb (NFService.nf_id upf_a) (NFService.nf_id s))
         (DB.nfservice (snd run2)) = [upf_a_degraded] /\
  List.length (DB.nfservice (snd run2)) = S (List.length (DB.nfservice DB.empty)).
Proof.
  apply (nrf_register_twice upf_a upf_a_degraded DB.empty); [reflexivity|].
  intros s [].
Defined.

(** X3: At most one record per [nf_id]: registration keeps the instance
    identifiers of the registry free of duplicates. *)
Theorem nrf_register_unique (svc : NFService.t) (d : DB.t) :
  NoDup (map NFService.nf_id (DB.nfservice d)) ->
  NoDup (map NFService.nf_id (DB.nfservice (snd (nrf_register svc d)))).
Proof.
  intros Hnd. rewrite nrf_register_run.
  destruct (service_of (NFService.nf_id svc) d) eqn:E; simpl.
  - rewrite map_update_one; [exact Hnd|].
    intros x Hx. simpl. now apply String.eqb_eq in Hx.
  - unfold insert_one. rewrite map_app. simpl.
    apply NoDup_app; [exact Hnd | constructor; [intros [] | constructor] |].
    intros x Hx [<-|[]].
    apply in_map_iff in Hx as [s [Hs Hin]].
    unfold service_of in E. rewrite find_one_none in E.
    specialize (E s Hin). apply String.eqb_neq in E. congruence.
Qed.

Lemma nrf_register_unique_witness :
  NoDup (map NFService.nf_id
             (DB.nfservice (snd (nrf_register upf_a_degraded
                                              (snd (nrf_register upf_a DB.empty)))))).
Proof.
  apply (nrf_register_unique upf_a_degraded (snd (nrf_register upf_a DB.empty))).
  apply (nrf_register_unique upf_a DB.empty).
  constructor.
Defined.

(** X4: The registry feeds UPF resolution: once a service of type UPF is
    registered, and no stored service of type UPF has another [nf_id], every
    session established afterwards is placed on that instance. *)
Theorem nrf_register_resolves_upf (svc : NFService.t) (now : Z) (payload : Payload.t)
        (d d' : DB.t) (r : Established.t) :
  NFService.nf_type svc = "UPF" ->
  (forall s, In s (DB.nfservice d) -> NFService.nf_type s = "UPF" ->
             NFService.nf_id s = NFService.nf_id svc) ->
  establish_session now payload (snd (nrf_register svc d)) = (inr r, d') ->
  Established.upf r = NFService.nf_id svc /\
  exists sess, In sess (DB.pdusession d') /\
               PDUSession.session_id sess = Established.session_id r /\
               PDUSession.upf_id sess = Some (NFService.nf_id svc).
Proof.
  intros Ht Honly Hrun.
  destruct (establish_session_inv _ _ _ _ _ Hrun) as [supi [ue [_ [_ [-> ->]]]]].
  assert (Hres : resolved_upf (snd (nrf_register svc d)) = NFService.nf_id svc).
  { destruct (resolved_upf_spec (snd (nrf_register svc d)))
      as [[s [Hin [Hty ->]]] | [Hno _]].
    - revert Hin. rewrite nrf_register_run.
      destruct (service_of (NFService.nf_id svc) d) eqn:E; simpl; intros Hin.
      + clear E. induction (DB.nfservice d) as [|y c IH]; simpl in Hin; [destruct Hin|].
        destruct (String.eqb (NFService.nf_id svc) (NFService.nf_id y)) eqn:Ey.
        * destruct Hin as [<-|Hin]; [reflexivity|].
          apply Honly; [now right | exact Hty].
        * destruct Hin as [<-|Hin]; [apply Honly; [now left | exact Hty]|].
          apply IH; [|exact Hin].
          intros s0 Hs0. apply Honly. now right.
      + unfold insert_one in Hin. apply in_app_or in Hin as [Hin|[<-|[]]].
        * now apply Honly.
        * reflexivity.
    - exfalso. apply (Hno svc); [|exact Ht].
      pose proof (service_of_nrf_register svc d) as Hs.
      now apply find_one_some in Hs. }
  simpl Established.upf. split; [exact Hres|].
  eexists. split.
  - simpl. unfold insert_one. apply in_or_app. right. left. reflexivity.
  - simpl. rewrite Hres. split; reflexivity.
Qed.

Lemma nrf_register_resolves_upf_witness :
  let d' := snd (establish_session 1700000005250000 (payload_supi "imsi-1")
                                   (snd (nrf_register upf_a db_registered))) in
  Established.upf (Established.Build "OK" "sess-imsi-1-1700000005" "upf-a" default_qos)
  = "upf-a" /\
  exists sess, In sess (DB.pdusession d') /\
               PDUSession.session_id sess = "sess-imsi-1-1700000005" /\
               PDUSession.upf_id sess = Some "upf-a".
Proof.
  apply (nrf_register_resolves_upf upf_a 1700000005250000 (payload_supi "imsi-1")
                                   db_registered _
                                   (Established.Build "OK" "sess-imsi-1-1700000005"
                                                      "upf-a" default_qos));
    [reflexivity | intros s [] | reflexivity].
Defined.

(* ------------------------------------------------------------------ *)
(** ** Authenticator *)

(** X5: Authentication succeeds, with the token ["auth-" ++ supi], as soon as a UE
    record of the subscriber exists, registered or not; without one it fails
    with [NotFoundError] and writes nothing.  It never touches the UE
    collection. *)
Theorem authenticate_contract (payload : Payload.t) (supi : string) (d : DB.t) :
  let run := authenticate (Payload.set_supi (Some supi) payload) d in
  ((exists u, In u (DB.ue d) /\ UE.supi u = supi) ->
   fst run = inr ("OK", "auth-" ++ supi)) /\
  ((forall u, In u (DB.ue d) -> UE.supi u <> supi) ->
   run = (inl NotFoundError_ue, d)) /\
  DB.ue (snd run) = DB.ue d.
Proof.
  cbv zeta. unfold authenticate. run_handler.
  destruct (find_one (fun u => String.eqb supi (UE.supi u)) (DB.ue d)) as [u0|] eqn:E;
    simpl.
  - split; [reflexivity | split; [|reflexivity]].
    intros Hno. exfalso.
    apply find_one_some in E as [Hin He]. apply String.eqb_eq in He.
    exact (Hno u0 Hin (eq_sym He)).
  - split; [|split; reflexivity].
    intros [u [Hin Hs]]. exfalso.
    rewrite find_one_none in E. specialize (E u Hin).
    apply String.eqb_neq in E. congruence.
Qed.

(* ------------------------------------------------------------------ *)
(** ** Policy Provider *)

Lemma set_policy_run (rule : PolicyRule.t) (d : DB.t) :
  set_policy rule d =
    let same := fun r => String.eqb (PolicyRule.policy_id rule) (PolicyRule.policy_id r) in
    match policy_of (PolicyRule.policy_id rule) d with
    | Some _ =>
      (inr "updated",
       DB.with_logentry
         (insert_one (LogEntry.Build "PCF" "INFO" "Policy updated"
                        [("policy_id", JStr (PolicyRule.policy_id rule))]))
         (DB.with_policyrule (update_one same (fun _ => rule)) d))
    | None =>
      (inr "created",
       DB.with_logentry
         (insert_one (LogEntry.Build "PCF" "INFO" "Policy created"
                        [("policy_id", JStr (PolicyRule.policy_id rule))]))
         (DB.with_policyrule (insert_one rule) d))
    end.
Proof.
  unfold set_policy, policy_of. run_handler.
  destruct (find_one _ (DB.policyrule d)); reflexivity.
Qed.

Lemma get_policy_run (policy_id : string) (d : DB.t) :
  get_policy policy_id d =
    match policy_of policy_id d with
    | Some rule => (inr rule, d)
    | None => (inl (HTTPExc 404 "Policy not found"), d)
    end.
Proof.
  unfold get_policy, policy_of. run_handler.
  destruct (find_one _ (DB.policyrule d)); reflexivity.
Qed.

Lemma policy_of_set_policy (rule : PolicyRule.t) (d : DB.t) :
  policy_of (PolicyRule.policy_id rule) (snd (set_policy rule d)) = Some rule.
Proof. apply set_policy_stored. Qed.

(** X6: Set then get: the rule just set is the rule [get_policy] returns under its
    identifier, whether it was created or replaced an older one; and the
    answer of [set_policy] tells which. *)
Theorem set_policy_get_policy (rule : PolicyRule.t) (d : DB.t) :
  let d' := snd (set_policy rule d) in
  get_policy (PolicyRule.policy_id rule) d' = (inr rule, d') /\
  fst (set_policy rule d) =
    inr (match fst (get_policy (PolicyRule.policy_id rule) d) with
         | inr _ => "updated"
         | inl _ => "created"
         end).
Proof.
  cbv zeta. rewrite !get_policy_run, policy_of_set_policy.
  split; [reflexivity|].
  rewrite set_policy_run.
  destruct (policy_of (PolicyRule.policy_id rule) d); reflexivity.
Qed.

(** X7: Setting one policy leaves what [get_policy] answers under every other
    identifier as it was, also when that is "not found". *)
Theorem set_policy_other_id (rule : PolicyRule.t) (policy_id : string) (d : DB.t) :
  policy_id <> PolicyRule.policy_id rule ->
  fst (get_policy policy_id (snd (set_policy rule d))) = fst (get_policy policy_id d).
Proof.
  intros Hne.
  assert (Hp : policy_of policy_id (snd (set_policy rule d)) = policy_of policy_id d).
  { rewrite set_policy_run. unfold policy_of.
    destruct (find_one _ (DB.policyrule d)); simpl.
    - apply find_one_update_other.
      + intros x Hx. apply String.eqb_eq in Hx. apply String.eqb_neq. congruence.
      + intros x _. now apply String.eqb_neq.
    - apply find_one_insert_other. now apply String.eqb_neq. }
  rewrite !get_policy_run, Hp. now destruct (policy_of policy_id d).
Qed.

Lemma set_policy_other_id_witness :
  fst (get_policy "gold" (snd (set_policy silver_policy
                                          (snd (set_policy gold_policy DB.empty)))))
  = inr gold_policy /\
  fst (get_policy "bronze" (snd (set_policy silver_policy DB.empty)))
  = inl (HTTPExc 404 "Policy not found").
Proof.
  split.
  - rewrite (set_policy_other_id silver_policy "gold"
               (snd (set_policy gold_policy DB.empty))); [reflexivity | discriminate].
  - rewrite (set_policy_other_id silver_policy "bronze" DB.empty);
      [reflexivity | discriminate].
Defined.

(** X8: At most one rule per [policy_id]: [set_policy] keeps the policy
    identifiers of the store free of duplicates. *)
Theorem set_policy_unique (rule : PolicyRule.t) (d : DB.t) :
  NoDup (map PolicyRule.policy_id (DB.policyrule d)) ->
  NoDup (map PolicyRule.policy_id (DB.policyrule (snd (set_policy rule d)))).
Proof.
  intros Hnd. rewrite set_policy_run.
  destruct (policy_of (PolicyRule.policy_id rule) d) eqn:E; simpl.
  - rewrite map_update_one; [exact Hnd|].
    intros x Hx. simpl. now apply String.eqb_eq in Hx.
  - unfold insert_one. rewrite map_app. simpl.
    apply NoDup_app; [exact Hnd | constructor; [intros [] | constructor] |].
    intros x Hx [<-|[]].
    apply in_map_iff in Hx as [r [Hr Hin]].
    unfold policy_of in E. rewrite find_one_none in E.
    specialize (E r Hin). apply String.eqb_neq in E. congruence.
Qed.

Lemma set_policy_unique_witness :
  NoDup (map PolicyRule.policy_id
             (DB.policyrule (snd (set_policy gold_policy_v2
                                             (snd (set_policy gold_policy DB.empty)))))).
Proof.
  apply (set_policy_unique gold_policy_v2 (snd (set_policy gold_policy DB.empty))).
  apply (set_policy_unique gold_policy DB.empty).
  constructor.
Defined.


(* ------------------------------------------------------------------ *)
(** ** Registration Orchestrator: direct registration and frames *)

Lemma amf_register_ue_eq (now : Z) (ue : UE.t) (d : DB.t) :
  amf_register_ue now ue d =
    let same := fun u => String.eqb (UE.supi ue) (UE.supi u) in
    match ue_of (UE.supi ue) d with
    | Some _ =>
      (inr "updated",
       DB.with_logentry
         (insert_one (LogEntry.Build "AMF" "INFO" "UE updated"
                        [("supi", JStr (UE.supi ue))]))
         (DB.with_ue (update_one same (fun _ => mark_registered now ue)) d))
    | None =>
      (inr "registered",
       DB.with_logentry
         (insert_one (LogEntry.Build "AMF" "INFO" "UE registered"
                        [("supi", JStr (UE.supi ue))]))
         (DB.with_ue (insert_one (mark_registered now ue)) d))
    end.
Proof.
  unfold amf_register_ue, ue_of. run_handler.
  destruct (find_one _ (DB.ue d)); reflexivity.
Qed.

Lemma registered_ue_of_amf_register_ue (now : Z) (ue : UE.t) (d : DB.t) :
  registered_ue_of (UE.supi ue) (snd (amf_register_ue now ue d))
  = Some (mark_registered now ue).
Proof.
  rewrite amf_register_ue_eq. unfold registered_ue_of, ue_of.
  destruct (find_one _ (DB.ue d)) eqn:E; simpl.
  - apply (find_one_replace_and (fun u => String.eqb (UE.supi ue) (UE.supi u))
                                (fun u => Bool.eqb (UE.registered u) true)).
    + apply String.eqb_refl.
    + reflexivity.
    + now rewrite E.
  - apply (find_one_insert_and (fun u => String.eqb (UE.supi ue) (UE.supi u))
                               (fun u => Bool.eqb (UE.registered u) true)).
    + apply String.eqb_refl.
    + reflexivity.
    + exact E.
Qed.

(** X10: Direct registration replaces the stored record wholesale: afterwards the
    record of the subscriber is the request's own, marked registered and seen
    at [now], so slices and AMF granted earlier by the registration flow are
    gone unless the request repeats them.  The answer is ["updated"] exactly
    when a record existed, and a record is added only when none did. *)
Theorem amf_register_ue_replaces (now : Z) (ue : UE.t) (d : DB.t) :
  let run := amf_register_ue now ue d in
  fst run = inr (match ue_of (UE.supi ue) d with
                 | Some _ => "updated"
                 | None => "registered"
                 end) /\
  ue_of (UE.supi ue) (snd run)
  = Some (UE.Build (UE.supi ue) (UE.guti ue) (UE.plmn ue) (UE.slices ue) true
                   (UE.amf_id ue) (Some now)) /\
  List.length (DB.ue (snd run)) =
    match ue_of (UE.supi ue) d with
    | Some _ => List.length (DB.ue d)
    | None => S (List.length (DB.ue d))
    end.
Proof.
  cbv zeta. split; [|split].
  - rewrite amf_register_ue_eq. now destruct (ue_of (UE.supi ue) d).
  - apply amf_register_ue_run.
  - rewrite amf_register_ue_eq.
    destruct (ue_of (UE.supi ue) d); simpl.
    + apply update_one_length.
    + apply insert_one_length.
Qed.

(** X11: Direct registration is enough for a session: after [amf_register_ue] a
    session request for that subscriber is accepted, and its slice is the
    request's own if given and not empty, else the first slice the
    registration brought, else ["default"]. *)
Theorem amf_register_ue_then_session (now now' : Z) (ue : UE.t) (payload : Payload.t)
        (d : DB.t) :
  Payload.supi payload = Some (UE.supi ue) -> UE.supi ue <> "" ->
  let d1 := snd (amf_register_ue now ue d) in
  exists r d2 sess,
    establish_session now' payload d1 = (inr r, d2) /\
    DB.pdusession d2 = (DB.pdusession d ++ [sess])%list /\
    PDUSession.supi sess = UE.supi ue /\
    PDUSession.s_nssai sess =
      or_else (Payload.slice payload) (first_slice (UE.slices ue)).
Proof.
  intros Hs Hne. cbv zeta.
  assert (Ts : truthy (Payload.supi payload) = Some (UE.supi ue))
    by now apply truthy_some.
  rewrite (establish_session_run now' payload (UE.supi ue) _ Ts).
  rewrite registered_ue_of_amf_register_ue.
  do 3 eexists. split; [reflexivity|].
  simpl DB.pdusession.
  rewrite amf_register_ue_eq.
  destruct (ue_of (UE.supi ue) d); simpl; repeat split; reflexivity.
Qed.

Lemma amf_register_ue_then_session_witness :
  exists r d2 sess,
    establish_session 1700000005250000 (payload_supi "imsi-2")
                      (snd (amf_register_ue 1700000000000000 ue_imsi2 DB.empty))
    = (inr r, d2) /\
    DB.pdusession d2 = [sess] /\
    PDUSession.supi sess = "imsi-2" /\
    PDUSession.s_nssai sess = "7".
Proof.
  apply (amf_register_ue_then_session 1700000000000000 1700000005250000 ue_imsi2
                                      (payload_supi "imsi-2") DB.empty);
    [reflexivity | discriminate].
Defined.

Lemma ue_after_ensure (supi plmn : string) (d : DB.t) :
  DB.ue (after_ensure_ue supi plmn d) =
    match ue_of supi d with
    | Some _ => DB.ue d
    | None => insert_one (UE.Build supi None plmn [] false None None) (DB.ue d)
    end.
Proof.
  unfold after_ensure_ue, ensure_ue, ue_of. run_handler.
  destruct (find_one _ (DB.ue d)); reflexivity.
Qed.

Lemma ue_after_flow (now : Z) (payload : Payload.t) (supi plmn : string) (d : DB.t) :
  truthy (Payload.supi payload) = Some supi ->
  truthy (Payload.plmn payload) = Some plmn ->
  DB.ue (snd (ue_registration_flow now payload d)) =
    match chosen_slice (Some plmn) (DB.slice d) with
    | None => DB.ue (after_ensure_ue supi plmn d)
    | Some sl =>
      update_one (fun u => String.eqb supi (UE.supi u))
                 (set_registration now (Slice.slice_id sl))
                 (DB.ue (after_ensure_ue supi plmn d))
    end.
Proof.
  intros Ts Tp. rewrite (ue_registration_flow_run now payload supi plmn d Ts Tp).
  destruct (chosen_slice (Some plmn) (DB.slice d)); reflexivity.
Qed.

Lemma truthy_cases (payload : Payload.t) :
  (exists supi plmn, truthy (Payload.supi payload) = Some supi /\
                     truthy (Payload.plmn payload) = Some plmn) \/
  (truthy (Payload.supi payload) = None \/ truthy (Payload.plmn payload) = None).
Proof.
  destruct (truthy (Payload.supi payload)) as [s|];
    destruct (truthy (Payload.plmn payload)) as [p|]; eauto.
Qed.

Lemma supi_after_ensure_unique (supi plmn : string) (d : DB.t) :
  NoDup (map UE.supi (DB.ue d)) ->
  NoDup (map UE.supi (DB.ue (after_ensure_ue supi plmn d))).
Proof.
  intros Hnd. rewrite ue_after_ensure.
  destruct (ue_of supi d) eqn:E; [exact Hnd|].
  unfold insert_one. rewrite map_app. simpl.
  apply NoDup_app; [exact Hnd | constructor; [intros [] | constructor] |].
  intros x Hx [<-|[]].
  apply in_map_iff in Hx as [u [Hu Hin]].
  unfold ue_of in E. rewrite find_one_none in E.
  specialize (E u Hin). apply String.eqb_neq in E. congruence.
Qed.

(** X12: [supi] stays a key of the UE collection: neither direct registration nor
    the registration flow, whatever its payload and outcome, stores a second
    record for a subscriber. *)
Theorem ue_supi_unique (now : Z) (ue : UE.t) (payload : Payload.t) (d : DB.t) :
  NoDup (map UE.supi (DB.ue d)) ->
  NoDup (map UE.supi (DB.ue (snd (amf_register_ue now ue d)))) /\
  NoDup (map UE.supi (DB.ue (snd (ue_registration_flow now payload d)))).
Proof.
  intros Hnd. split.
  - rewrite amf_register_ue_eq.
    destruct (ue_of (UE.supi ue) d) eqn:E; simpl.
    + rewrite map_update_one; [exact Hnd|].
      intros x Hx. simpl. now apply String.eqb_eq in Hx.
    + unfold insert_one. rewrite map_app. simpl.
      apply NoDup_app; [exact Hnd | constructor; [intros [] | constructor] |].
      intros x Hx [<-|[]].
      apply in_map_iff in Hx as [u [Hu Hin]].
      unfold ue_of in E. rewrite find_one_none in E.
      specialize (E u Hin). apply String.eqb_neq in E. congruence.
  - destruct (truthy_cases payload) as [[supi [plmn [Ts Tp]]] | Hinv].
    + rewrite (ue_after_flow now payload supi plmn d Ts Tp).
      pose proof (supi_after_ensure_unique supi plmn d Hnd) as H1.
      destruct (chosen_slice (Some plmn) (DB.slice d)); [|exact H1].
      rewrite map_update_one; [exact H1 | reflexivity].
    + now rewrite (ue_registration_flow_invalid now payload d Hinv).
Qed.

Lemma ue_supi_unique_witness :
  NoDup (map UE.supi
             (DB.ue (snd (amf_register_ue 1700000000000000 ue_imsi2 db_registered)))) /\
  NoDup (map UE.supi
             (DB.ue (snd (ue_registration_flow 1700000000000000
                            (payload_flow "imsi-2" "001-01") db_registered)))).
Proof.
  apply (ue_supi_unique 1700000000000000 ue_imsi2 (payload_flow "imsi-2" "001-01")
                        db_registered).
  constructor; [intros [] | constructor].
Defined.

Lemma ue_of_after_ensure_other (supi supi' plmn : string) (d : DB.t) :
  supi' <> supi ->
  ue_of supi' (after_ensure_ue supi plmn d) = ue_of supi' d.
Proof.
  intros Hne. unfold ue_of at 1. rewrite ue_after_ensure.
  destruct (ue_of supi d); [reflexivity|].
  apply find_one_insert_other. now apply String.eqb_neq.
Qed.

(** X13: Registration of one subscriber leaves the record of every other
    subscriber as it was, through direct registration and through the flow,
    whatever the outcome of the flow. *)
Theorem registration_other_subscribers (now : Z) (ue : UE.t) (payload : Payload.t)
        (supi' : string) (d : DB.t) :
  (supi' <> UE.supi ue ->
   ue_of supi' (snd (amf_register_ue now ue d)) = ue_of supi' d) /\
  (Payload.supi payload <> Some supi' ->
   ue_of supi' (snd (ue_registration_flow now payload d)) = ue_of supi' d).
Proof.
  split; intros Hne.
  - rewrite amf_register_ue_eq. unfold ue_of.
    destruct (find_one (fun u => String.eqb (UE.supi ue) (UE.supi u)) (DB.ue d)); simpl.
    + apply find_one_update_other.
      * intros x Hx. apply String.eqb_eq in Hx. apply String.eqb_neq. congruence.
      * intros x _. now apply String.eqb_neq.
    + apply find_one_insert_other. now apply String.eqb_neq.
  - destruct (truthy_cases payload) as [[supi [plmn [Ts Tp]]] | Hinv].
    + assert (Hs : supi' <> supi).
      { apply truthy_some in Ts as [Ts _]. congruence. }
      unfold ue_of at 1. rewrite (ue_after_flow now payload supi plmn d Ts Tp).
      destruct (chosen_slice (Some plmn) (DB.slice d)).
      * rewrite find_one_update_other.
        -- now apply ue_of_after_ensure_other.
        -- intros x Hx. apply String.eqb_eq in Hx. apply String.eqb_neq. congruence.
        -- intros x Hx. apply String.eqb_eq in Hx. apply String.eqb_neq.
           simpl. congruence.
      * now apply ue_of_after_ensure_other.
    + now rewrite (ue_registration_flow_invalid now payload d Hinv).
Qed.

(** X14: Running the registration flow again: after a successful flow, the same
    request succeeds again with the same slice, adds no record, and changes
    nothing in the UE collection but [last_seen] of the subscriber's record. *)
Theorem ue_registration_flow_again (now1 now2 : Z) (payload : Payload.t) (supi : string)
        (d d1 : DB.t) (r : string * string) :
  Payload.supi payload = Some supi ->
  ue_registration_flow now1 payload d = (inr r, d1) ->
  exists d2,
    ue_registration_flow now2 payload d1 = (inr r, d2) /\
    DB.ue d2 = update_one (fun u => String.eqb supi (UE.supi u)) (seen_at now2) (DB.ue d1).
Proof.
  intros Hs Hrun.
  destruct (truthy_cases payload) as [[s [plmn [Ts Tp]]] | Hinv].
  2:{ rewrite (ue_registration_flow_invalid now1 payload d Hinv) in Hrun. discriminate. }
  assert (s = supi) by (apply truthy_some in Ts as [Ts _]; congruence). subst s.
  pose proof (ue_after_flow now1 payload supi plmn d Ts Tp) as Hue1.
  rewrite Hrun in Hue1. simpl snd in Hue1.
  rewrite (ue_registration_flow_run now1 payload supi plmn d Ts Tp) in Hrun.
  destruct (chosen_slice (Some plmn) (DB.slice d)) as [sl|] eqn:Ec; [|discriminate].
  injection Hrun as <- Hd1.
  assert (Hslice : DB.slice d1 = DB.slice d).
  { rewrite <- Hd1. simpl. apply after_ensure_ue_frame. }
  assert (Hfound : ue_of supi d1 <> None).
  { unfold ue_of. rewrite Hue1.
    rewrite find_one_update by (intros x Hx; exact Hx).
    fold (ue_of supi (after_ensure_ue supi plmn d)).
    rewrite after_ensure_ue_found. destruct (ue_of supi d); discriminate. }
  pose proof (ue_after_flow now2 payload supi plmn d1 Ts Tp) as Hue2.
  rewrite (ue_registration_flow_run now2 payload supi plmn d1 Ts Tp) in *.
  rewrite Hslice, Ec in *.
  eexists. split; [reflexivity|].
  simpl snd in Hue2. rewrite Hue2, ue_after_ensure.
  destruct (ue_of supi d1); [|congruence].
  rewrite Hue1.
  rewrite !update_one_twice by (intros x Hx; exact Hx).
  apply update_one_ext. reflexivity.
Qed.

Lemma ue_registration_flow_again_witness :
  let d1 := snd (ue_registration_flow 1700000000000000 (payload_flow "imsi-1" "001-01")
                                      db_one_slice) in
  exists d2,
    ue_registration_flow 1700000060000000 (payload_flow "imsi-1" "001-01") d1
    = (inr ("OK", "1"), d2) /\
    DB.ue d2 = update_one (fun u => String.eqb "imsi-1" (UE.supi u))
                          (seen_at 1700000060000000) (DB.ue d1).
Proof.
  apply (ue_registration_flow_again 1700000000000000 1700000060000000
                                    (payload_flow "imsi-1" "001-01") "imsi-1"
                                    db_one_slice _ ("OK", "1"));
    reflexivity.
Defined.

(* ------------------------------------------------------------------ *)
(** ** Sessions and UPF aggregates *)

Lemma upfstate_after_establish (sess : PDUSession.t) (upf_id : string) (d : DB.t) :
  DB.upfstate (after_establish sess upf_id d) =
    match find_one (fun st => opt_eqb (Some upf_id) (UPFState.upf_id st))
                   (DB.upfstate d) with
    | Some _ => DB.upfstate d
    | None => insert_one (UPFState.Build (Some upf_id) 0 0) (DB.upfstate d)
    end.
Proof.
  unfold after_establish, DB.with_logentry, DB.with_upfstate, upsert_one.
  cbn [DB.upfstate DB.with_pdusession].
  destruct (find_one _ (DB.upfstate d)); [apply update_one_same | reflexivity].
Qed.

Lemma upf_of_after_establish (sess : PDUSession.t) (upf_id : string)
      (u : option string) (d : DB.t) :
  upf_of u (after_establish sess upf_id d) =
    match upf_of u d with
    | Some st => Some st
    | None => if opt_eqb u (Some upf_id)
              then Some (UPFState.Build (Some upf_id) 0 0)
              else None
    end.
Proof.
  unfold upf_of. rewrite upfstate_after_establish.
  destruct (find_one (fun st => opt_eqb (Some upf_id) (UPFState.upf_id st))
                     (DB.upfstate d)) as [st0|] eqn:E0.
  - destruct (find_one (fun st => opt_eqb u (UPFState.upf_id st)) (DB.upfstate d))
      as [st|] eqn:E; [reflexivity|].
    destruct (opt_eqb u (Some upf_id)) eqn:Eu; [|reflexivity].
    apply opt_eqb_eq in Eu. subst u. congruence.
  - rewrite find_one_insert. cbn [UPFState.upf_id].
    destruct (find_one (fun st => opt_eqb u (UPFState.upf_id st)) (DB.upfstate d));
      reflexivity.
Qed.

Lemma upf_counters_after_establish (sess : PDUSession.t) (upf_id : string)
      (u : option string) (d : DB.t) :
  upf_ul u (after_establish sess upf_id d) = upf_ul u d /\
  upf_dl u (after_establish sess upf_id d) = upf_dl u d.
Proof.
  unfold upf_ul, upf_dl. rewrite upf_of_after_establish.
  destruct (upf_of u d); [split; reflexivity|].
  destruct (opt_eqb u (Some upf_id)); split; reflexivity.
Qed.

(** X16: Establishing a session makes sure the UPF it is placed on has an
    aggregate record, and never resets counters: every aggregate that existed
    is left as it was, and the one created starts at zero. *)
Theorem establish_session_keeps_counters (now : Z) (payload : Payload.t) (d d' : DB.t)
        (r : Established.t) :
  establish_session now payload d = (inr r, d') ->
  (exists st, upf_of (Some (Established.upf r)) d' = Some st) /\
  (forall u st, upf_of u d = Some st -> upf_of u d' = Some st) /\
  (upf_of (Some (Established.upf r)) d = None ->
   upf_of (Some (Established.upf r)) d'
   = Some (UPFState.Build (Some (Established.upf r)) 0 0)).
Proof.
  intros Hrun.
  destruct (establish_session_inv _ _ _ _ _ Hrun) as [supi [ue [_ [_ [-> ->]]]]].
  simpl Established.upf. repeat split.
  - rewrite upf_of_after_establish.
    destruct (upf_of (Some (resolved_upf d)) d); [eauto|].
    rewrite opt_eqb_refl. eauto.
  - intros u st Hst. now rewrite upf_of_after_establish, Hst.
  - intros Hnone. now rewrite upf_of_after_establish, Hnone, opt_eqb_refl.
Qed.

Lemma establish_session_keeps_counters_witness :
  let d' := snd (establish_session 1700000005250000 (payload_supi "imsi-1")
                                   db_registered) in
  (exists st, upf_of (Some "upf-1") d' = Some st) /\
  (forall u st, upf_of u db_registered = Some st -> upf_of u d' = Some st) /\
  (upf_of (Some "upf-1") db_registered = None ->
   upf_of (Some "upf-1") d' = Some (UPFState.Build (Some "upf-1") 0 0)).
Proof.
  exact (establish_session_keeps_counters 1700000005250000 (payload_supi "imsi-1")
           db_registered _ established_imsi1 eq_refl).
Defined.

(** X17: Establish, then send traffic: when the identifier of the new session is
    not yet in use, traffic sent to it is accepted, the session's counters are
    exactly the amounts sent, and the aggregate of the UPF in the answer has
    grown by them. *)
Theorem establish_then_traffic (now : Z) (payload traffic : Payload.t) (d d1 : DB.t)
        (r : Established.t) :
  establish_session now payload d = (inr r, d1) ->
  (forall s, In s (DB.pdusession d) ->
             PDUSession.session_id s <> Established.session_id r) ->
  let ul := get_default (Payload.ul traffic) 1000 in
  let dl := get_default (Payload.dl traffic) 2000 in
  let upf := Some (Established.upf r) in
  exists d2 sess,
    simulate_traffic (Established.session_id r) traffic d1 = (inr "ok", d2) /\
    session_of (Established.session_id r) d2 = Some sess /\
    PDUSession.ul_bytes sess = ul /\
    PDUSession.dl_bytes sess = dl /\
    PDUSession.upf_id sess = upf /\
    upf_ul upf d2 = upf_ul upf d + ul /\
    upf_dl upf d2 = upf_dl upf d + dl.
Proof.
  intros Hrun Hfresh. cbv zeta.
  destruct (establish_session_inv _ _ _ _ _ Hrun) as [supi [ue [_ [_ [Hr Hd1]]]]].
  subst r. simpl Established.session_id in *. simpl Established.upf.
  set (sess0 := session_for now payload supi ue d) in *.
  assert (Hs : session_of (new_session_id supi now) d1 = Some sess0).
  { subst d1. unfold session_of. simpl DB.pdusession.
    rewrite find_one_insert.
    assert (E : find_one (fun s => String.eqb (new_session_id supi now)
                                              (PDUSession.session_id s))
                         (DB.pdusession d) = None).
    { apply find_one_none. intros s Hin. apply String.eqb_neq.
      intros Heq. exact (Hfresh s Hin (eq_sym Heq)). }
    rewrite E. simpl. now rewrite String.eqb_refl. }
  rewrite simulate_traffic_run, Hs.
  do 2 eexists. split; [reflexivity|].
  split; [now apply session_of_after_traffic|].
  change (Some (resolved_upf d)) with (PDUSession.upf_id sess0).
  rewrite upf_ul_after_traffic, upf_dl_after_traffic.
  subst d1.
  destruct (upf_counters_after_establish sess0 (resolved_upf d)
              (PDUSession.upf_id sess0) d) as [-> ->].
  repeat split.
Qed.

Lemma establish_then_traffic_witness :
  exists d2 sess,
    simulate_traffic "sess-imsi-1-1700000005" (payload_traffic 500 700) db_session
    = (inr "ok", d2) /\
    session_of "sess-imsi-1-1700000005" d2 = Some sess /\
    PDUSession.ul_bytes sess = 500 /\
    PDUSession.dl_bytes sess = 700 /\
    PDUSession.upf_id sess = Some "upf-1" /\
    upf_ul (Some "upf-1") d2 = upf_ul (Some "upf-1") db_registered + 500 /\
    upf_dl (Some "upf-1") d2 = upf_dl (Some "upf-1") db_registered + 700.
Proof.
  apply (establish_then_traffic 1700000005250000 (payload_supi "imsi-1")
                                (payload_traffic 500 700) db_registered db_session
                                established_imsi1 eq_refl).
  intros s [].
Defined.

Lemma pdusession_after_traffic (session_id : string) (sess : PDUSession.t) (ul dl : Z)
      (d : DB.t) :
  DB.pdusession (after_traffic session_id sess ul dl d) =
    update_one (fun s => String.eqb session_id (PDUSession.session_id s))
               (inc_session ul dl) (DB.pdusession d).
Proof. reflexivity. Qed.

(** X18: Traffic touches byte counters and nothing else: every session keeps its
    other fields and its place, sessions under another identifier are left
    as they were, and so are UEs, slices, policies and services. *)
Theorem simulate_traffic_frame (session_id : string) (payload : Payload.t) (d : DB.t) :
  let d' := snd (simulate_traffic session_id payload d) in
  map without_counters (DB.pdusession d') = map without_counters (DB.pdusession d) /\
  (forall other, other <> session_id -> session_of other d' = session_of other d) /\
  DB.ue d' = DB.ue d /\ DB.slice d' = DB.slice d /\
  DB.policyrule d' = DB.policyrule d /\ DB.nfservice d' = DB.nfservice d.
Proof.
  cbv zeta. rewrite simulate_traffic_run.
  destruct (session_of session_id d) as [sess|]; simpl snd.
  2:{ repeat split. }
  split; [|split; [|repeat split]].
  - rewrite pdusession_after_traffic. apply map_update_one. reflexivity.
  - intros other Hne. unfold session_of. rewrite pdusession_after_traffic.
    apply find_one_update_other.
    + intros x Hx. apply String.eqb_eq in Hx. apply String.eqb_neq. congruence.
    + intros x Hx. apply String.eqb_eq in Hx. apply String.eqb_neq. simpl. congruence.
Qed.

Lemma sessions_insert (u : option string) (s : PDUSession.t) (c : list PDUSession.t) :
  sessions_ul u (insert_one s c) =
    sessions_ul u c + (if opt_eqb u (PDUSession.upf_id s) then PDUSession.ul_bytes s else 0)
  /\
  sessions_dl u (insert_one s c) =
    sessions_dl u c + (if opt_eqb u (PDUSession.upf_id s) then PDUSession.dl_bytes s else 0).
Proof.
  unfold insert_one. induction c as [|y c [IHu IHd]]; simpl.
  - split; lia.
  - rewrite IHu, IHd. split; lia.
Qed.

Lemma sessions_update (u : option string) (session_id : string) (ul dl : Z)
      (sess : PDUSession.t) (c : list PDUSession.t) :
  find_one (fun s => String.eqb session_id (PDUSession.session_id s)) c = Some sess ->
  let c' := update_one (fun s => String.eqb session_id (PDUSession.session_id s))
                       (inc_session ul dl) c in
  sessions_ul u c' = sessions_ul u c + (if opt_eqb u (PDUSession.upf_id sess) then ul else 0)
  /\
  sessions_dl u c' = sessions_dl u c + (if opt_eqb u (PDUSession.upf_id sess) then dl else 0).
Proof.
  unfold find_one. cbv zeta.
  induction c as [|y c IH]; simpl; [discriminate|].
  destruct (String.eqb session_id (PDUSession.session_id y)) eqn:Ey.
  - intros H. injection H as ->. simpl.
    destruct (opt_eqb u (PDUSession.upf_id sess)); split; lia.
  - intros H. destruct (IH H) as [IHu IHd]. simpl. rewrite IHu, IHd. split; lia.
Qed.

Lemma upf_counters_after_traffic (u : option string) (session_id : string)
      (sess : PDUSession.t) (ul dl : Z) (d : DB.t) :
  upf_ul u (after_traffic session_id sess ul dl d)
  = upf_ul u d + (if opt_eqb u (PDUSession.upf_id sess) then ul else 0) /\
  upf_dl u (after_traffic session_id sess ul dl d)
  = upf_dl u d + (if opt_eqb u (PDUSession.upf_id sess) then dl else 0).
Proof.
  destruct (opt_eqb u (PDUSession.upf_id sess)) eqn:Eu.
  - apply opt_eqb_eq in Eu. subst u.
    split; [apply upf_ul_after_traffic | apply upf_dl_after_traffic].
  - assert (Hof : upf_of u (after_traffic session_id sess ul dl d) = upf_of u d).
    { apply opt_eqb_neq in Eu.
      unfold upf_of, after_traffic, DB.with_logentry, DB.with_upfstate, upsert_one.
      cbn [DB.upfstate DB.with_pdusession].
      destruct (find_one (fun st => opt_eqb (PDUSession.upf_id sess) (UPFState.upf_id st))
                         (DB.upfstate d)).
      - apply find_one_update_other.
        + intros x Hx. apply opt_eqb_eq in Hx. apply opt_eqb_neq. congruence.
        + intros x Hx. apply opt_eqb_eq in Hx. apply opt_eqb_neq.
          cbn [inc_upf UPFState.upf_id]. congruence.
      - apply find_one_insert_other. now apply opt_eqb_neq. }
    unfold upf_ul, upf_dl. rewrite Hof. split; lia.
Qed.

(** X19: Conservation of bytes: for every UPF, what its aggregate counts beyond
    the counters of the sessions placed on it is the same before and after
    [simulate_traffic], and before and after [establish_session], whatever
    their outcome; so an aggregate that equals the sum over its sessions keeps
    doing so. *)
Theorem traffic_conservation (u : option string) (d : DB.t) :
  (forall session_id payload,
     let d' := snd (simulate_traffic session_id payload d) in
     upf_ul u d' - sessions_ul u (DB.pdusession d')
     = upf_ul u d - sessions_ul u (DB.pdusession d) /\
     upf_dl u d' - sessions_dl u (DB.pdusession d')
     = upf_dl u d - sessions_dl u (DB.pdusession d)) /\
  (forall now payload,
     let d' := snd (establish_session now payload d) in
     upf_ul u d' - sessions_ul u (DB.pdusession d')
     = upf_ul u d - sessions_ul u (DB.pdusession d) /\
     upf_dl u d' - sessions_dl u (DB.pdusession d')
     = upf_dl u d - sessions_dl u (DB.pdusession d)).
Proof.
  split.
  - intros session_id payload. cbv zeta. rewrite simulate_traffic_run.
    destruct (session_of session_id d) as [sess|] eqn:Es; simpl snd.
    2:{ split; reflexivity. }
    rewrite pdusession_after_traffic.
    destruct (upf_counters_after_traffic u session_id sess
                (get_default (Payload.ul payload) 1000)
                (get_default (Payload.dl payload) 2000) d) as [-> ->].
    destruct (sessions_update u session_id
                (get_default (Payload.ul payload) 1000)
                (get_default (Payload.dl payload) 2000) sess (DB.pdusession d) Es)
      as [-> ->].
    split; lia.
  - intros now payload. cbv zeta.
    destruct (establish_session now payload d) as [[e|r] d'] eqn:Hrun; simpl snd.
    + apply establish_session_failure_frame in Hrun. subst d'. split; reflexivity.
    + destruct (establish_session_inv _ _ _ _ _ Hrun) as [supi [ue [_ [_ [_ ->]]]]].
      destruct (upf_counters_after_establish (session_for now payload supi ue d)
                  (resolved_upf d) u d) as [-> ->].
      change (DB.pdusession (after_establish (session_for now payload supi ue d)
                                             (resolved_upf d) d))
        with (insert_one (session_for now payload supi ue d) (DB.pdusession d)).
      destruct (sessions_insert u (session_for now payload supi ue d) (DB.pdusession d))
        as [-> ->].
      cbn [session_for PDUSession.ul_bytes PDUSession.dl_bytes PDUSession.upf_id].
      destruct (opt_eqb u (Some (resolved_upf d))); split; lia.
Qed.

Lemma create_pdu_session_run (session : PDUSession.t) (d : DB.t) :
  create_pdu_session session d =
    let stored := with_qos_rules (policy_snapshot d) session in
    (inr "created",
     DB.with_logentry
       (insert_one (LogEntry.Build "SMF" "INFO" "PDU session created"
                      [("session_id", JStr (PDUSession.session_id session));
                       ("supi", JStr (PDUSession.supi session))]))
       (DB.with_pdusession (insert_one stored) d)).
Proof. reflexivity. Qed.

(** X20: Direct session creation takes the QoS from the policy store, not from
    the request: the stored session is the requested one with [qos_rules]
    replaced by the [qos] of the first stored policy, or by [{"5qi": 9}] when
    the policy store is empty, which is also the QoS a successful
    [establish_session] answers with on the same store.  It asks for no
    registered UE and creates no UPF aggregate. *)
Theorem create_pdu_session_snapshot (session : PDUSession.t) (d : DB.t) :
  let run := create_pdu_session session d in
  let attached :=
    match DB.policyrule d with
    | p :: _ => PolicyRule.qos p
    | [] => [("5qi", JNum 9)]
    end in
  fst run = inr "created" /\
  DB.pdusession (snd run)
  = (DB.pdusession d
     ++ [PDUSession.Build (PDUSession.session_id session) (PDUSession.supi session)
                          (PDUSession.dnn session) (PDUSession.s_nssai session)
                          (PDUSession.smf_id session) (PDUSession.upf_id session)
                          (PDUSession.state session) attached
                          (PDUSession.ul_bytes session) (PDUSession.dl_bytes session)])%list /\
  (forall now payload r d',
     establish_session now payload d = (inr r, d') -> Established.qos r = attached) /\
  DB.upfstate (snd run) = DB.upfstate d /\
  DB.ue (snd run) = DB.ue d.
Proof.
  cbv zeta. rewrite create_pdu_session_run. cbv zeta. simpl fst. simpl snd.
  split; [reflexivity | split; [|split; [|split; reflexivity]]].
  - simpl DB.pdusession. unfold insert_one, with_qos_rules.
    now rewrite policy_snapshot_spec.
  - intros now payload r d' Hrun.
    destruct (establish_session_inv _ _ _ _ _ Hrun) as [supi [ue [_ [_ [-> _]]]]].
    simpl. apply policy_snapshot_spec.
Qed.

(** X21: Traffic on a directly created session: when its identifier was not in
    use, traffic is accepted, is added to the counters the request brought,
    and the aggregate of the session's UPF, created on the spot if it had
    none, grows by the amounts sent. *)
Theorem create_pdu_session_then_traffic (session : PDUSession.t)
        (traffic : Payload.t) (d : DB.t) :
  (forall s, In s (DB.pdusession d) ->
             PDUSession.session_id s <> PDUSession.session_id session) ->
  let d1 := snd (create_pdu_session session d) in
  let ul := get_default (Payload.ul traffic) 1000 in
  let dl := get_default (Payload.dl traffic) 2000 in
  exists d2 sess,
    simulate_traffic (PDUSession.session_id session) traffic d1 = (inr "ok", d2) /\
    session_of (PDUSession.session_id session) d2 = Some sess /\
    PDUSession.ul_bytes sess = PDUSession.ul_bytes session + ul /\
    PDUSession.dl_bytes sess = PDUSession.dl_bytes session + dl /\
    upf_ul (PDUSession.upf_id session) d2 = upf_ul (PDUSession.upf_id session) d + ul /\
    upf_dl (PDUSession.upf_id session) d2 = upf_dl (PDUSession.upf_id session) d + dl.
Proof.
  intros Hfresh. cbv zeta. rewrite create_pdu_session_run. cbv zeta. simpl snd.
  set (stored := with_qos_rules (policy_snapshot d) session).
  set (d1 := DB.with_logentry _ _).
  assert (Hs : session_of (PDUSession.session_id session) d1 = Some stored).
  { unfold session_of, d1. simpl DB.pdusession. rewrite find_one_insert.
    assert (E : find_one (fun s => String.eqb (PDUSession.session_id session)
                                              (PDUSession.session_id s))
                         (DB.pdusession d) = None).
    { apply find_one_none. intros s Hin. apply String.eqb_neq.
      intros Heq. exact (Hfresh s Hin (eq_sym Heq)). }
    rewrite E. simpl. now rewrite String.eqb_refl. }
  rewrite simulate_traffic_run, Hs.
  do 2 eexists. split; [reflexivity|].
  split; [now apply session_of_after_traffic|].
  change (PDUSession.upf_id session) with (PDUSession.upf_id stored).
  rewrite upf_ul_after_traffic, upf_dl_after_traffic.
  repeat split.
Qed.

Lemma create_pdu_session_then_traffic_witness :
  exists d2 sess,
    simulate_traffic "sess-direct" Payload.empty
                     (snd (create_pdu_session session_direct db_session))
    = (inr "ok", d2) /\
    session_of "sess-direct" d2 = Some sess /\
    PDUSession.ul_bytes sess = 10 + 1000 /\
    PDUSession.dl_bytes sess = 20 + 2000 /\
    upf_ul None d2 = upf_ul None db_session + 1000 /\
    upf_dl None d2 = upf_dl None db_session + 2000.
Proof.
  apply (create_pdu_session_then_traffic session_direct Payload.empty db_session).
  intros s [<-|[]]. discriminate.
Defined.




(* ------------------------------------------------------------------ *)
(** ** Session identifiers *)

Lemma has_dash_app (a b : string) : has_dash (a ++ b) = has_dash a || has_dash b.
Proof.
  induction a as [|c a IH]; simpl; [reflexivity|].
  now rewrite IH, orb_assoc.
Qed.

Lemma string_of_uint_no_dash (d : Decimal.uint) :
  has_dash (NilEmpty.string_of_uint d) = false.
Proof. induction d; simpl; auto. Qed.

Lemma str_of_int_no_dash (n : Z) : 0 <= n -> has_dash (str_of_int n) = false.
Proof.
  intros Hn. unfold str_of_int.
  destruct n as [|p|p]; [reflexivity | | lia].
  simpl. unfold NilZero.string_of_uint.
  pose proof (string_of_uint_no_dash (Pos.to_uint p)) as H.
  destruct (Pos.to_uint p); simpl in *; auto.
Qed.

Lemma to_int_proper (n : Z) :
  Z.to_int n <> Decimal.Pos Decimal.Nil /\ Z.to_int n <> Decimal.Neg Decimal.Nil.
Proof.
  destruct n as [|p|p]; simpl; split; try discriminate;
    intros H; injection H as H; now apply DecimalPos.Unsigned.to_uint_nonnil in H.
Qed.

(** The decimal rendering of integers is one-to-one. *)
Lemma str_of_int_inj (n m : Z) : str_of_int n = str_of_int m -> n = m.
Proof.
  unfold str_of_int. intros H.
  apply DecimalZ.to_int_inj.
  destruct (to_int_proper n) as [Hn1 Hn2], (to_int_proper m) as [Hm1 Hm2].
  pose proof (NilZero.isi (Z.to_int n) Hn1 Hn2) as En.
  pose proof (NilZero.isi (Z.to_int m) Hm1 Hm2) as Em.
  rewrite H in En. congruence.
Qed.

Lemma append_inj_l (a x y : string) : (a ++ x = a ++ y)%string -> x = y.
Proof.
  induction a as [|c a IH]; simpl; [auto|].
  intros H. injection H as H. auto.
Qed.

(** Splitting at the last dash is unambiguous. *)
Lemma split_last_dash (s1 s2 x1 x2 : string) :
  has_dash x1 = false -> has_dash x2 = false ->
  (s1 ++ "-" ++ x1 = s2 ++ "-" ++ x2)%string ->
  s1 = s2 /\ x1 = x2.
Proof.
  intros H1 H2. revert s2.
  induction s1 as [|c s1 IH]; intros [|c2 s2]; simpl; intros H.
  - injection H as H. auto.
  - injection H as Hc H. exfalso.
    rewrite H, has_dash_app in H1. simpl in H1.
    rewrite orb_true_r in H1. discriminate.
  - injection H as Hc H. exfalso.
    rewrite <- H, has_dash_app in H2. simpl in H2.
    rewrite orb_true_r in H2. discriminate.
  - injection H as -> H. destruct (IH s2 H) as [-> ->]. auto.
Qed.

Lemma new_session_id_inj (s1 s2 : string) (now1 now2 : Z) :
  0 <= now1 -> 0 <= now2 ->
  new_session_id s1 now1 = new_session_id s2 now2 ->
  s1 = s2 /\ timestamp_seconds now1 = timestamp_seconds now2.
Proof.
  intros H1 H2 H. unfold new_session_id in H.
  apply append_inj_l in H.
  assert (Hq : forall n, 0 <= n -> 0 <= timestamp_seconds n).
  { intros n Hn. unfold timestamp_seconds. apply Z.quot_pos; lia. }
  apply split_last_dash in H; try (apply str_of_int_no_dash; auto).
  destruct H as [-> H]. split; [reflexivity | now apply str_of_int_inj].
Qed.

(** X22: When two sessions get one identifier: for clock readings from the
    epoch up to 2^34 seconds, the range on which the clock's conversion to
    whole seconds is exact, two successful requests are answered with the same
    [session_id] exactly when they are for the same subscriber and fall in
    the same whole second. *)
Theorem session_id_collides_iff (now1 now2 : Z) (p1 p2 : Payload.t) (s1 s2 : string)
        (d1 d1' d2 d2' : DB.t) (r1 r2 : Established.t) :
  0 <= now1 < 17179869184000000 -> 0 <= now2 < 17179869184000000 ->
  Payload.supi p1 = Some s1 -> Payload.supi p2 = Some s2 ->
  establish_session now1 p1 d1 = (inr r1, d1') ->
  establish_session now2 p2 d2 = (inr r2, d2') ->
  (Established.session_id r1 = Established.session_id r2 <->
   s1 = s2 /\ timestamp_seconds now1 = timestamp_seconds now2).
Proof.
  intros [H1 _] [H2 _] Hs1 Hs2 Hr1 Hr2.
  destruct (establish_session_inv _ _ _ _ _ Hr1) as [t1 [u1 [T1 [_ [-> _]]]]].
  destruct (establish_session_inv _ _ _ _ _ Hr2) as [t2 [u2 [T2 [_ [-> _]]]]].
  apply truthy_some in T1 as [T1 _]. apply truthy_some in T2 as [T2 _].
  assert (t1 = s1) by congruence. assert (t2 = s2) by congruence. subst t1 t2.
  simpl Established.session_id. split.
  - now apply new_session_id_inj.
  - intros [-> Ht]. now apply new_session_id_same_second.
Qed.

Lemma session_id_collides_iff_witness :
  Established.session_id established_imsi1 = Established.session_id established_imsi1 <->
  "imsi-1" = "imsi-1" /\
  timestamp_seconds 1700000005100000 = timestamp_seconds 1700000005900000.
Proof.
  apply (session_id_collides_iff 1700000005100000 1700000005900000
           (payload_supi "imsi-1") (payload_supi "imsi-1") "imsi-1" "imsi-1"
           db_registered
           (snd (establish_session 1700000005100000 (payload_supi "imsi-1") db_registered))
           db_session
           (snd (establish_session 1700000005900000 (payload_supi "imsi-1") db_session))
           established_imsi1 established_imsi1);
    try reflexivity; lia.
Defined.

(* ------------------------------------------------------------------ *)
(** ** Refusals and the log *)

Lemma log_grows_one (d : DB.t) (entry : LogEntry.t) (d0 : DB.t) :
  DB.logentry d0 = DB.logentry d ->
  log_grows 1 d (DB.with_logentry (insert_one entry) d0).
Proof.
  intros H. exists [entry]. split; [reflexivity|].
  simpl. now rewrite H.
Qed.

(** X23: A request that is refused by one of the single-step handlers leaves the
    whole store as it was, log included. *)
Theorem refusal_writes_nothing (now : Z) (d d' : DB.t) (e : HTTPException) :
  (forall payload, select_slice payload d = (inl e, d') -> d' = d) /\
  (forall payload, authenticate payload d = (inl e, d') -> d' = d) /\
  (forall policy_id, get_policy policy_id d = (inl e, d') -> d' = d) /\
  (forall payload, establish_session now payload d = (inl e, d') -> d' = d) /\
  (forall session_id payload,
     simulate_traffic session_id payload d = (inl e, d') -> d' = d).
Proof.
  repeat split.
  - intros payload. rewrite select_slice_run.
    destruct (chosen_slice _ _); [discriminate | intros H; now injection H].
  - intros payload. unfold authenticate. run_handler.
    destruct (find_one _ (DB.ue d)); [discriminate | intros H; now injection H].
  - intros policy_id. rewrite get_policy_run.
    destruct (policy_of policy_id d); [discriminate | intros H; now injection H].
  - intros payload. apply establish_session_failure_frame.
  - intros session_id payload. rewrite simulate_traffic_run.
    destruct (session_of session_id d); [discriminate | intros H; now injection H].
Qed.

(** X24: Every accepted request of a single-step handler appends exactly one
    entry to the log and rewrites none; registering an NF is the one handler
    that writes to the store and logs nothing. *)
Theorem log_one_entry (now : Z) (d : DB.t) :
  (forall payload r d', select_slice payload d = (inr r, d') -> log_grows 1 d d') /\
  (forall payload r d', authenticate payload d = (inr r, d') -> log_grows 1 d d') /\
  (forall rule, log_grows 1 d (snd (set_policy rule d))) /\
  (forall ue, log_grows 1 d (snd (amf_register_ue now ue d))) /\
  (forall session, log_grows 1 d (snd (create_pdu_session session d))) /\
  (forall payload r d',
     establish_session now payload d = (inr r, d') -> log_grows 1 d d') /\
  (forall session_id payload r d',
     simulate_traffic session_id payload d = (inr r, d') -> log_grows 1 d d') /\
  (forall svc, DB.logentry (snd (nrf_register svc d)) = DB.logentry d).
Proof.
  repeat split.
  - intros payload r d'. rewrite select_slice_run.
    destruct (chosen_slice _ _); [|discriminate].
    intros H. injection H as _ <-. now apply log_grows_one.
  - intros payload r d'. unfold authenticate. run_handler.
    destruct (find_one _ (DB.ue d)); [|discriminate].
    intros H. injection H as _ <-. now apply log_grows_one.
  - intros rule. rewrite set_policy_run.
    destruct (policy_of _ d); now apply log_grows_one.
  - intros ue. rewrite amf_register_ue_eq.
    destruct (ue_of _ d); now apply log_grows_one.
  - intros session. rewrite create_pdu_session_run. now apply log_grows_one.
  - intros payload r d' Hrun.
    destruct (establish_session_inv _ _ _ _ _ Hrun) as [supi [ue [_ [_ [_ ->]]]]].
    now apply log_grows_one.
  - intros session_id payload r d'. rewrite simulate_traffic_run.
    destruct (session_of session_id d); [|discriminate].
    intros H. injection H as _ <-. now apply log_grows_one.
  - intros svc. rewrite nrf_register_run.
    destruct (service_of _ d); reflexivity.
Qed.

Lemma truthy_none (o : option string) :
  truthy o = None <-> o = None \/ o = Some "".
Proof.
  destruct o as [[|a s]|]; simpl; split; auto; try discriminate.
  intros [H|H]; discriminate.
Qed.

(** X15: How the registration flow ends, case by case.  A payload whose [supi]
    or [plmn] is missing or empty is refused with the validation error and
    nothing is written.  With both given and not empty, the flow fails with
    [NoSliceAvailable] when no slice is stored, having logged the
    authentication alone, and succeeds with [("OK", slice)] when a slice is
    stored, having logged three entries: authentication, slice selection and
    completion.  So it never fails with [NotFoundError] or [AuthError]: the
    record it ensures makes authentication succeed. *)
Theorem ue_registration_flow_outcomes (now : Z) (payload : Payload.t) (d : DB.t) :
  let run := ue_registration_flow now payload d in
  (Payload.supi payload = None \/ Payload.supi payload = Some "" \/
   Payload.plmn payload = None \/ Payload.plmn payload = Some "" ->
   run = (inl ValidationError_supi_plmn, d)) /\
  (forall supi plmn,
     Payload.supi payload = Some supi -> supi <> "" ->
     Payload.plmn payload = Some plmn -> plmn <> "" ->
     (DB.slice d = [] ->
      fst run = inl NoSliceAvailable /\ log_grows 1 d (snd run)) /\
     (DB.slice d <> [] ->
      exists sl, In sl (DB.slice d) /\
                 fst run = inr ("OK", Slice.slice_id sl) /\
                 log_grows 3 d (snd run))) /\
  (forall e, fst run = inl e ->
             e = ValidationError_supi_plmn \/ e = NoSliceAvailable).
Proof.
  cbv zeta.
  assert (Hvalid : forall supi plmn,
             truthy (Payload.supi payload) = Some supi ->
             truthy (Payload.plmn payload) = Some plmn ->
             (DB.slice d = [] ->
              fst (ue_registration_flow now payload d) = inl NoSliceAvailable /\
              log_grows 1 d (snd (ue_registration_flow now payload d))) /\
             (DB.slice d <> [] ->
              exists sl, In sl (DB.slice d) /\
                         fst (ue_registration_flow now payload d)
                         = inr ("OK", Slice.slice_id sl) /\
                         log_grows 3 d (snd (ue_registration_flow now payload d)))).
  { intros supi plmn Ts Tp.
    rewrite (ue_registration_flow_run now payload supi plmn d Ts Tp).
    assert (Hlog : DB.logentry (after_ensure_ue supi plmn d) = DB.logentry d)
      by apply after_ensure_ue_frame.
    split.
    - intros He. rewrite He. simpl fst. simpl snd.
      split; [reflexivity | now apply log_grows_one].
    - intros Hne.
      destruct (chosen_slice_fallback (Some plmn) (DB.slice d) Hne) as [sl [Ec Hin]].
      rewrite Ec. exists sl. simpl fst. simpl snd.
      split; [exact Hin | split; [reflexivity|]].
      eexists [_; _; _]. split; [reflexivity|].
      simpl. unfold insert_one. rewrite Hlog, <- !app_assoc. reflexivity. }
  split; [|split].
  - intros Hinv. apply ue_registration_flow_invalid.
    rewrite !truthy_none. tauto.
  - intros supi plmn Hs Hsn Hp Hpn.
    apply (Hvalid supi plmn); apply truthy_some; auto.
  - intros e He.
    destruct (truthy_cases payload) as [[supi [plmn [Ts Tp]]] | Hinv].
    + destruct (Hvalid supi plmn Ts Tp) as [Hnone Hsome].
      destruct (DB.slice d) as [|x c] eqn:Es.
      * destruct (Hnone eq_refl) as [H _]. right. congruence.
      * destruct Hsome as [sl [_ [H _]]]; [discriminate | congruence].
    + rewrite (ue_registration_flow_invalid now payload d Hinv) in He.
      left. simpl in He. congruence.
Qed.

(* ------------------------------------------------------------------ *)
(** ** The end-to-end scenario of the spec *)

Example scenario_registration :
  let '(r, d) := ue_registration_flow 1700000000000000 (payload_flow "imsi-1" "001-01")
                                      db_one_slice in
  r = inr ("OK", "1") /\
  DB.ue d = [UE.Build "imsi-1" None "001-01" ["1"] true (Some "amf-1")
                      (Some 1700000000000000)].
Proof. vm_compute. split; reflexivity. Qed.

Example scenario_session :
  let '(_, d1) := ue_registration_flow 1700000000000000 (payload_flow "imsi-1" "001-01")
                                       db_one_slice in
  let '(r, d2) := establish_session 1700000005250000 (payload_supi "imsi-1") d1 in
  r = inr (Established.Build "OK" "sess-imsi-1-1700000005" "upf-1" default_qos) /\
  DB.pdusession d2 =
    [PDUSession.Build "sess-imsi-1-1700000005" "imsi-1" "internet" "1" (Some "smf-1")
                      (Some "upf-1") "ACTIVE" default_qos 0 0] /\
  DB.upfstate d2 = [UPFState.Build (Some "upf-1") 0 0].
Proof. vm_compute. repeat split; reflexivity. Qed.
